(** * A shallow embedding of the retrieval-and-response core of the chatbot

    The development follows the Python sources module by module:
    [utils/config.py], [utils/document_processor.py],
    [utils/intent_detector.py], [utils/response_enhancer.py] and
    [app/chat_engine.py].

    Modelling conventions.
    - A Python [str] is a [string]: the UTF-8 bytes of the text.  Case
      folding ([str.lower]) and white space ([str.isspace], the class [\s] of
      [re]) are those of the ASCII range.
    - A Python [float] is a [pyfloat]: either [NaN], on which every
      comparison is false, or a finite value carried as an exact rational.
    - A [dict] that is looked up by computed keys is a [gmap]; a [dict] that
      is iterated (its insertion order matters) is an association list.
    - An exception is a value of [exn]; a call that may raise returns a
      [result].
    - The models that the code only calls (sentence embedder, zero-shot
      classifier, language-model chain), the file system and the state of
      Python's [random] module are parameters of the embedding. *)

From Stdlib Require Import QArith Qround Qabs Ascii.
From stdpp Require Import base decidable option list sorting gmap strings pretty.

Local Open Scope Z_scope.

(** ** Python floats *)

Inductive pyfloat : Type :=
  | NaN
  | Fin (q : Q).

(** [x >= y], [x <= y] and [x < y] on floats: false as soon as one side is
    [NaN]. *)
Definition float_ge (x y : pyfloat) : bool :=
  match x, y with
  | Fin a, Fin b => Qle_bool b a
  | _, _ => false
  end.

Definition float_le (x y : pyfloat) : bool := float_ge y x.

Definition float_lt (x y : pyfloat) : bool :=
  match x, y with
  | Fin a, Fin b => negb (Qle_bool b a)
  | _, _ => false
  end.

(** [x - y]: [NaN] is absorbing. *)
Definition float_sub (x y : pyfloat) : pyfloat :=
  match x, y with
  | Fin a, Fin b => Fin (a - b)
  | _, _ => NaN
  end.

(** Truth value of a float: only zero is false ([NaN] is true). *)
Definition float_truthy (x : pyfloat) : bool :=
  match x with
  | Fin a => negb (Qeq_bool a 0)
  | NaN => true
  end.

(** The integer nearest to a rational, ties to even. *)
Definition round_half_even (a : Q) : Z :=
  let f := Qfloor a in
  match (a - inject_Z f ?= 1 # 2)%Q with
  | Lt => f
  | Gt => f + 1
  | Eq => if Z.even f then f else f + 1
  end.

Fixpoint zero_pad (width : nat) (s : string) : string :=
  match (width - String.length s)%nat with
  | O => s
  | S _ =>
      match width with
      | O => s
      | S w => "0" +:+ zero_pad w s
      end
  end.

(** [f"{x:.Nf}"]: fixed-point notation with [digits] decimals. *)
Definition format_f (digits : nat) (x : pyfloat) : string :=
  match x with
  | NaN => "nan"
  | Fin q =>
      let scale := 10 ^ Z.of_nat digits in
      let r := round_half_even (Qabs q * inject_Z scale) in
      (if Qlt_le_dec q 0 then "-" else "")
      +:+ pretty (r / scale) +:+ "." +:+ zero_pad digits (pretty (r mod scale))
  end.

Definition is_finite (x : pyfloat) : Prop :=
  match x with Fin _ => True | NaN => False end.

(** ** Exceptions *)

Inductive exn : Type :=
  | KeyError (key : string)
  | IndexError
  | RuntimeError (msg : string).

Inductive result (A : Type) : Type :=
  | Ok (a : A)
  | Raise (e : exn).
Arguments Ok {A} a.
Arguments Raise {A} e.

Global Instance result_ret : MRet result := λ A a, Ok a.
Global Instance result_bind : MBind result := λ A B k m,
  match m with
  | Ok a => k a
  | Raise e => Raise e
  end.

(** [try: m except Exception: h]. *)
Definition try_except {A} (m : result A) (h : exn → result A) : result A :=
  match m with
  | Ok a => Ok a
  | Raise e => h e
  end.

(** [d[k]] on a dict: raises [KeyError] when the key is absent. *)
Definition getitem {V} (d : gmap string V) (k : string) : result V :=
  match d !! k with
  | Some v => Ok v
  | None => Raise (KeyError k)
  end.

(** The comprehension [[f(x) for x in l]] when [f] may raise: the elements
    are computed left to right and the first exception stops it. *)
Fixpoint mapM {A B} (f : A → result B) (l : list A) : result (list B) :=
  match l with
  | [] => Ok []
  | x :: l' => y ← f x; ys ← mapM f l'; Ok (y :: ys)
  end.

(** ** Python strings *)

Module Str.

Definition nl : string := String (Ascii.ascii_of_nat 10) "".

(** [str.isspace] on one character of the ASCII range: TAB, LF, VT, FF,
    CR, the four separators FS, GS, RS, US and the space. *)
Definition isspace (c : ascii) : bool :=
  let n := Ascii.nat_of_ascii c in
  ((9 <=? n)%nat && (n <=? 13)%nat) || ((28 <=? n)%nat && (n <=? 32)%nat).

Definition lower_char (c : ascii) : ascii :=
  let n := Ascii.nat_of_ascii c in
  if ((65 <=? n)%nat && (n <=? 90)%nat) then Ascii.ascii_of_nat (n + 32) else c.

(** [s.lower()] on ASCII text: the letters A to Z are folded, every other
    byte is kept.  Python folds the letters of other scripts as well, and a
    capital sigma by its place in the word; the properties below use
    [lower] only through the tests in which the code applies it, never
    through a law of its own. *)
Fixpoint lower (s : string) : string :=
  match s with
  | EmptyString => EmptyString
  | String c s' => String (lower_char c) (lower s')
  end.

(** [s.startswith(p)] *)
Definition startswith (s p : string) : bool := String.prefix p s.

(** [needle in hay] *)
Fixpoint contains (hay needle : string) : bool :=
  String.prefix needle hay ||
  match hay with
  | EmptyString => false
  | String _ hay' => contains hay' needle
  end.

(** [s[:n]] for [n >= 0] *)
Fixpoint take (n : nat) (s : string) : string :=
  match n, s with
  | S n', String c s' => String c (take n' s')
  | _, _ => EmptyString
  end.

(** [s[n:]] for [n >= 0] *)
Fixpoint drop (n : nat) (s : string) : string :=
  match n, s with
  | S n', String _ s' => drop n' s'
  | _, _ => s
  end.

(** [s.lstrip()], [s.rstrip()] and [s.strip()] *)
Fixpoint lstrip (s : string) : string :=
  match s with
  | String c s' => if isspace c then lstrip s' else s
  | EmptyString => EmptyString
  end.

Fixpoint rstrip (s : string) : string :=
  match s with
  | EmptyString => EmptyString
  | String c s' =>
      match rstrip s' with
      | EmptyString => if isspace c then EmptyString else String c EmptyString
      | r => String c r
      end
  end.

Definition strip (s : string) : string := rstrip (lstrip s).

(** [s.replace(old, new, 1)]: the first occurrence only. *)
Fixpoint replace_first (s old new : string) : string :=
  if String.prefix old s then new +:+ drop (String.length old) s
  else match s with
       | EmptyString => EmptyString
       | String c s' => String c (replace_first s' old new)
       end.

(** [sep.join(parts)] *)
Fixpoint join (sep : string) (parts : list string) : string :=
  match parts with
  | [] => ""
  | [p] => p
  | p :: ps => p +:+ sep +:+ join sep ps
  end.

(** [s.split(sep)] for a separator of one character *)
Fixpoint split (sep : ascii) (s : string) : list string :=
  match s with
  | EmptyString => [""]
  | String c s' =>
      let parts := split sep s' in
      if decide (c = sep) then "" :: parts
      else match parts with
           | p :: ps => String c p :: ps
           | [] => [String c ""]
           end
  end.

(** The characters of [s] that are not white space, in order: what a
    reader sees of [s]. *)
Fixpoint visible (s : string) : list ascii :=
  match s with
  | EmptyString => []
  | String c s' => if isspace c then visible s' else c :: visible s'
  end.

End Str.

(** ** utils/config.py *)

Record Contact : Type := {
  sales_email : string;
  support_email : string;
  careers_email : option string;
}.

(** The keys of the configuration dictionary that the core reads. *)
Module Config.
Record t : Type := {
  min_similarity_threshold : pyfloat;
  max_documents : Z;
  min_confidence : pyfloat;
  categories : list string;
  category_folders : gmap string string;
  category_keywords : list (string * list string);
  company_name : string;
  company_tagline : string;
  bot_name : string;
  contact : Contact;
}.
End Config.

Definition GENERAL : string := "general information about the company".
Definition BLOG : string := "company blog posts".
Definition CAREER : string := "career opportunities, vacancies, and recruitment".
Definition CASES : string := "case studies of past projects".
Definition SERVICES : string := "services offered by the company".
Definition SUCCESS : string := "success stories and client achievements".
Definition INDUSTRY : string := "industry-specific expertise and domain knowledge".
Definition POLICY : string := "company policy and disclaimers".

(** The dictionary built by [load_config], with the environment variables
    unset (their defaults apply). *)
Definition load_config : Config.t := {|
  Config.min_similarity_threshold := Fin (21 # 100);
  Config.max_documents := 3;
  Config.min_confidence := Fin (1 # 2);
  Config.categories :=
    [GENERAL; BLOG; CAREER; CASES; SERVICES; SUCCESS; INDUSTRY; POLICY];
  Config.category_folders :=
    <[GENERAL := "data/General/"]> $
    <[BLOG := "data/Blog/"]> $
    <[CAREER := "data/Career and Vacancies/"]> $
    <[CASES := "data/Case Studies/"]> $
    <[SERVICES := "data/Services/"]> $
    <[SUCCESS := "data/Success Stories/"]> $
    <[INDUSTRY := "data/Industry Expertise/"]> $
    <[POLICY := "data/Policy and Disclaimer/"]> ∅;
  Config.category_keywords := [
    (GENERAL,
      ["about the company"; "overview"; "mission"; "vision"; "culture";
       "contact"; "email"; "leadership"; "ceo"; "who we are";
       "company background"]);
    (BLOG, ["blog"; "insights"; "articles"; "write-up"]);
    (CAREER,
      ["vacancy"; "vacancies"; "openings"; "job position"; "job opening";
       "hiring"; "hire"; "job post"; "recruitment"; "career"; "career path";
       "opportunities"; "job opportunities"; "career growth";
       "roles available"; "employment"; "work at"]);
    (CASES,
      ["case study"; "case studies"; "project example"; "project case";
       "real-world project"]);
    (SERVICES,
      ["services"; "solutions"; "offerings"; "what you provide";
       "automation service"; "AI services"; "document processing";
       "consulting services"; "rpa services"; "domain knowledge"]);
    (SUCCESS,
      ["success story"; "client success"; "testimonial"; "achievement";
       "result"; "outcome"; "benefits for client"; "transformation"]);
    (INDUSTRY,
      ["industry expertise"; "domain knowledge"; "healthcare expertise";
       "insurance knowledge"; "finance domain"; "logistics industry";
       "bank"; "health"; "media"; "Food"; "beverage"; "travel";
       "hospitality"; "sector-specific knowledge"]);
    (POLICY,
      ["privacy policy"; "disclaimer"; "terms"; "conditions"; "legal";
       "cookie policy"])
  ];
  Config.company_name := "Sundew Solutions";
  Config.company_tagline := "Digital First. Digital Fast.";
  Config.bot_name := "Chetan";
  Config.contact := {|
    sales_email := "sales@sundewsolutions.com";
    support_email := "support@sundewsolutions.com";
    careers_email := Some "careers@sundewsolutions.com";
  |};
|}.

(** ** utils/document_processor.py *)

(** What [open(file_path).read()] gives for one entry of
    [folder.glob("*.txt")]: the text, or an exception. *)
Inductive file_read : Type :=
  | ReadError
  | Contents (text : string).

Record text_file : Type := {
  file_name : string;
  file_read_result : file_read;
}.

(** The corpus on disk: [None] where [os.path.exists] is false, otherwise
    the [*.txt] entries of the directory in the order [glob] lists them. *)
Definition filesystem : Type := string → option (list text_file).

(** A ranked document: the tuple [(similarity, filename, content)]. *)
Definition document : Type := pyfloat * string * string.

Definition similarity_of (d : document) : pyfloat := d.1.1.

(** [l[:k]] on a list, for any integer [k]: a negative [k] counts from the
    end. *)
Definition slice_to {A} (l : list A) (k : Z) : list A :=
  if k <? 0 then take (length l - Z.to_nat (- k)) l
  else take (Z.to_nat k) l.

(** [l.sort(reverse=True, key=key)]: a stable sort, largest key first;
    elements with equal keys keep their order.  The sort compares keys
    with [<] only.  On keys that are totally ordered every stable sort
    returns this list. *)
Section Sort.
Context {A : Type} (key : A → pyfloat).

Fixpoint insert_desc (x : A) (l : list A) : list A :=
  match l with
  | [] => [x]
  | y :: l' =>
      if float_lt (key x) (key y) then y :: insert_desc x l'
      else x :: y :: l'
  end.

Definition sort_desc (l : list A) : list A := foldr insert_desc [] l.

(** [x] goes before [y] in descending key order. *)
Definition key_ge (x y : A) : Prop := float_ge (key x) (key y) = true.
End Sort.

Section DocumentProcessor.
(** [self.embedder.encode], [util.pytorch_cos_sim(..).item()] and the
    disk. *)
Context {tensor : Type}.
Variable encode : string → tensor.
Variable pytorch_cos_sim : tensor → tensor → pyfloat.
Variable fs : filesystem.

Variable config : Config.t.

(** One iteration of the loop over [text_files]. *)
Definition _process_file (query_embedding : tensor) (min_similarity : pyfloat)
    (results : list document) (file_path : text_file) : list document :=
  match file_read_result file_path with
  | ReadError => results
  | Contents text =>
      let content := Str.strip text in
      if decide (content = "") then results
      else
        let filename := file_name file_path in
        let combined_text := filename +:+ " " +:+ Str.take 1000 content in
        let doc_embedding := encode combined_text in
        let similarity := pytorch_cos_sim query_embedding doc_embedding in
        if float_ge similarity min_similarity
        then results ++ [(similarity, filename, content)]
        else results
  end.

Definition _process_folder (folder_path : string) (query_embedding : tensor)
    (min_similarity : pyfloat) : list document :=
  match fs folder_path with
  | None => []
  | Some text_files =>
      foldl (_process_file query_embedding min_similarity) [] text_files
  end.

Definition rank_documents (user_prompt : string) (folders : list string)
    (top_k : option Z) (min_similarity : option pyfloat) : list document :=
  let top_k := default (Config.max_documents config) top_k in
  let min_similarity :=
    default (Config.min_similarity_threshold config) min_similarity in
  let query_embedding := encode user_prompt in
  let results :=
    foldl (λ results folder,
             results ++ _process_folder folder query_embedding min_similarity)
          [] folders in
  slice_to (sort_desc similarity_of results) top_k.

End DocumentProcessor.

(** ** utils/intent_detector.py *)

(** One entry of the ['details'] list: the dictionaries built by the three
    detection paths, with the keys a path does not set left [None]. *)
Module Detail.
Record t : Type := {
  category : string;
  keyword : option string;
  confidence : option pyfloat;
  method : string;
}.
End Detail.

(** The dictionary returned by [detect_intents]. *)
Module Intent.
Record t : Type := {
  method : string;
  categories : list string;
  folders : list string;
  confidence : pyfloat;
  details : list Detail.t;
}.
End Intent.

(** The dictionary returned by the zero-shot pipeline. *)
Record Classification : Type := {
  labels : list string;
  scores : list pyfloat;
}.

Section IntentDetector.
(** [self.classifier]: it returns a classification or raises. *)
Variable classifier : string → list string → result Classification.
Variable config : Config.t.

(** The body of the loop over [self.category_keywords.items()]; the inner
    loop stops at the first keyword found in the prompt. *)
Definition _keyword_step (prompt_lower : string) (matches : list Detail.t)
    (entry : string * list string) : list Detail.t :=
  let '(category, keywords) := entry in
  match find (λ keyword, Str.contains prompt_lower (Str.lower keyword))
             keywords with
  | Some keyword =>
      matches ++ [ {| Detail.category := category;
                      Detail.keyword := Some keyword;
                      Detail.confidence := None;
                      Detail.method := "keyword" |} ]
  | None => matches
  end.

Definition _detect_by_keywords (user_prompt : string) : list Detail.t :=
  let prompt_lower := Str.lower user_prompt in
  foldl (_keyword_step prompt_lower) [] (Config.category_keywords config).

Definition _get_fallback_intent : result Intent.t :=
  folder ← getitem (Config.category_folders config) GENERAL;
  Ok {| Intent.method := "fallback";
        Intent.categories := [GENERAL];
        Intent.folders := [folder];
        Intent.confidence := Fin 1;
        Intent.details :=
          [ {| Detail.category := GENERAL;
               Detail.keyword := None;
               Detail.confidence := None;
               Detail.method := "fallback" |} ] |}.

(** The body of the loop over [zip(result['labels'], result['scores'])]. *)
Definition _ml_step (top_score min_confidence score_margin : pyfloat)
    (selected : list Detail.t) (entry : string * pyfloat) : list Detail.t :=
  let '(label, score) := entry in
  if float_ge score min_confidence
     && float_le (float_sub top_score score) score_margin
  then selected ++ [ {| Detail.category := label;
                        Detail.keyword := None;
                        Detail.confidence := Some score;
                        Detail.method := "ml" |} ]
  else selected.

Definition _detect_by_ml (user_prompt : string)
    (min_confidence score_margin : pyfloat) : result Intent.t :=
  try_except
    (result ← classifier user_prompt (Config.categories config);
     top_score ← from_option Ok (Raise IndexError) (scores result !! 0%nat);
     let selected :=
       foldl (_ml_step top_score min_confidence score_margin) []
             (zip (labels result) (scores result)) in
     let selected :=
       match selected with
       | [] => selected ++ [ {| Detail.category := GENERAL;
                                Detail.keyword := None;
                                Detail.confidence := Some (Fin 1);
                                Detail.method := "fallback" |} ]
       | _ => selected
       end in
     folders ← mapM (λ item, getitem (Config.category_folders config)
                                      (Detail.category item)) selected;
     Ok {| Intent.method := "ml";
           Intent.categories := Detail.category <$> selected;
           Intent.folders := folders;
           Intent.confidence := top_score;
           Intent.details := selected |})
    (λ _, _get_fallback_intent).

Definition detect_intents (user_prompt : string)
    (min_confidence : option pyfloat) (score_margin : option pyfloat)
    : result Intent.t :=
  let min_confidence :=
    default (Config.min_confidence config) min_confidence in
  let score_margin := default (Fin (5 # 100)) score_margin in
  let keyword_matches := _detect_by_keywords user_prompt in
  match keyword_matches with
  | _ :: _ =>
      folders ← mapM (λ m, getitem (Config.category_folders config)
                                   (Detail.category m)) keyword_matches;
      Ok {| Intent.method := "keyword";
            Intent.categories := Detail.category <$> keyword_matches;
            Intent.folders := folders;
            Intent.confidence := Fin 1;
            Intent.details := keyword_matches |}
  | [] => _detect_by_ml user_prompt min_confidence score_margin
  end.

End IntentDetector.

(** ** The [re] module, as far as the core uses it *)

(** The patterns of [_format_response] are sequences of greedy bounded
    repetitions of a character class: [\n], [#{1,6}], [\s], [-], [\*],
    [\n{3,}]. *)
Module Re.

Record item : Type := {
  cls : ascii → bool;
  rmin : nat;
  rmax : option nat;
}.

Definition pattern : Type := list item.

Definition chr (c : ascii) : item :=
  {| cls := λ x, bool_decide (x = c); rmin := 1; rmax := Some 1%nat |}.
Definition space : item :=
  {| cls := Str.isspace; rmin := 1; rmax := Some 1%nat |}.
Definition rep (c : ascii) (lo : nat) (hi : option nat) : item :=
  {| cls := λ x, bool_decide (x = c); rmin := lo; rmax := hi |}.

(** Length of the longest prefix of [s] in the class, capped at [hi]. *)
Fixpoint run (f : ascii → bool) (hi : option nat) (s : string) : nat :=
  match hi, s with
  | Some O, _ => O
  | _, EmptyString => O
  | _, String c s' =>
      if f c then S (run f (pred <$> hi) s') else O
  end.

(** Greedy choice with backtracking: the largest count in [lo..n] for
    which the rest of the pattern matches. *)
Fixpoint backtrack {X} (n lo : nat) (k : nat → option X) : option X :=
  if (n <? lo)%nat then None
  else match k n with
       | Some r => Some r
       | None =>
           match n with
           | O => None
           | S n' => backtrack n' lo k
           end
       end.

(** Match [p] at the start of [s]: the text consumed by each item. *)
Fixpoint match_here (p : pattern) (s : string) : option (list string) :=
  match p with
  | [] => Some []
  | it :: p' =>
      backtrack (run (cls it) (rmax it) s) (rmin it)
        (λ n, segs ← match_here p' (Str.drop n s);
              Some (Str.take n s :: segs))
  end.

(** A replacement template: literal text and the text matched by the
    pattern's items (a group reference expands to the items it spans). *)
Inductive piece : Type :=
  | Lit (s : string)
  | Seg (i : nat).

Definition expand (tpl : list piece) (segs : list string) : string :=
  foldr (λ pc acc,
           match pc with
           | Lit s => s +:+ acc
           | Seg i => default "" (segs !! i) +:+ acc
           end) "" tpl.

Definition matched_length (segs : list string) : nat :=
  foldr (λ seg n, (String.length seg + n)%nat) O segs.

(** [re.sub(p, tpl, s)]: non-overlapping matches, leftmost first.  [skip]
    counts the characters of the current match still to be passed. *)
Fixpoint sub_go (p : pattern) (tpl : list piece) (s : string) (skip : nat)
    : string :=
  match skip with
  | S skip' =>
      match s with
      | EmptyString => EmptyString
      | String _ s' => sub_go p tpl s' skip'
      end
  | O =>
      match match_here p s with
      | Some segs =>
          expand tpl segs +:+
          match matched_length segs, s with
          | S n, String _ s' => sub_go p tpl s' n
          | O, String c s' => String c (sub_go p tpl s' O)
          | _, EmptyString => EmptyString
          end
      | None =>
          match s with
          | EmptyString => EmptyString
          | String c s' => String c (sub_go p tpl s' O)
          end
      end
  end.

Definition sub (p : pattern) (tpl : list piece) (s : string) : string :=
  sub_go p tpl s O.

(** Every character of [s] is in the class. *)
Fixpoint all_chars (f : ascii → bool) (s : string) : bool :=
  match s with
  | EmptyString => true
  | String c s' => f c && all_chars f s'
  end.

(** The text of a match: its segments put together. *)
Definition matched_text (segs : list string) : string :=
  foldr String.append "" segs.

(** A segment that an item can have consumed. *)
Definition seg_ok (it : item) (seg : string) : Prop :=
  all_chars (cls it) seg = true
  ∧ (rmin it ≤ String.length seg)%nat
  ∧ ∀ hi, rmax it = Some hi → (String.length seg ≤ hi)%nat.

(** A substitution whose replacement shows at least what the match
    showed. *)
Definition preserving (p : pattern) (tpl : list piece) : Prop :=
  ∀ (s : string) segs,
    match_here p s = Some segs →
    Str.visible (matched_text segs)
      `sublist_of` Str.visible (expand tpl segs).

End Re.

(** ** The [random] module *)

(** The generator is an oracle: a sequence of raw draws and a cursor.
    Every run of the program corresponds to some sequence. *)
Record RandomState : Type := {
  draws : nat → N;
  cursor : nat;
}.

Definition Rand (A : Type) : Type := RandomState → A * RandomState.

Global Instance Rand_ret : MRet Rand := λ A a st, (a, st).
Global Instance Rand_bind : MBind Rand := λ A B k m st,
  let '(a, st') := m st in k a st'.

Definition next_draw : Rand N := λ st,
  (draws st (cursor st), {| draws := draws st; cursor := S (cursor st) |}).

(** [random.random()]: a float in the interval [0, 1). *)
Definition random_random : Rand pyfloat :=
  n ← next_draw;
  mret (Fin (Z.of_N (n mod 2 ^ 53) # 2 ^ 53)).

(** [random.choice(seq)] on a sequence that is not empty ([d] stands for
    the element of an empty one, which Python refuses). *)
Definition random_choice {A} (seq : list A) (d : A) : Rand A :=
  n ← next_draw;
  mret (nth (N.to_nat n mod length seq) seq d).

(** ** utils/response_enhancer.py *)

(** The [user_data] argument: [None] or a dictionary of text fields. *)
Definition UserData : Type := option (gmap string string).

(** [user_data.get(key, '')] *)
Definition get_field (user_data : gmap string string) (key : string)
    : string :=
  default "" (user_data !! key).

Section ResponseEnhancer.
Variable config : Config.t.

Definition company_name : string := Config.company_name config.
Definition bot_name : string := Config.bot_name config.
Definition contact_info : Contact := Config.contact config.

Definition _build_user_context (user_data : gmap string string) : string :=
  let context_parts := [] in
  let context_parts :=
    if decide (get_field user_data "name" = "") then context_parts
    else context_parts ++ ["- User name: " +:+ get_field user_data "name"] in
  let context_parts :=
    if decide (get_field user_data "email" = "") then context_parts
    else
      let email := get_field user_data "email" in
      let domain :=
        if Str.contains email "@"
        then default "" (Str.split "@" email !! 1%nat) else "" in
      context_parts ++ ["- Email domain: " +:+ domain] in
  let context_parts :=
    if decide (get_field user_data "user_type" = "") then context_parts
    else context_parts
           ++ ["- User type: " +:+ get_field user_data "user_type"] in
  let context_parts :=
    if decide (get_field user_data "company_size" = "") then context_parts
    else context_parts
           ++ ["- Company size: " +:+ get_field user_data "company_size"] in
  let context_parts :=
    if decide (get_field user_data "selected_service" = "")
    then context_parts
    else context_parts
           ++ ["- Interested in: "
               +:+ get_field user_data "selected_service"] in
  match context_parts with
  | [] => "- New user interaction"
  | _ => Str.join Str.nl context_parts
  end.

Definition _build_intent_context (intents : Intent.t) : string :=
  let context_parts := [] in
  let context_parts :=
    match Intent.categories intents with
    | [] => context_parts
    | _ => context_parts
             ++ ["- Primary topics: "
                 +:+ Str.join ", " (take 2 (Intent.categories intents))]
    end in
  let context_parts :=
    if decide (Intent.method intents = "") then context_parts
    else context_parts
           ++ ["- Detection method: " +:+ Intent.method intents] in
  let context_parts :=
    if float_truthy (Intent.confidence intents)
    then context_parts
           ++ ["- Confidence: " +:+ format_f 2 (Intent.confidence intents)]
    else context_parts in
  match context_parts with
  | [] => "- General inquiry"
  | _ => Str.join Str.nl context_parts
  end.

Definition build_professional_prompt (user_question : string)
    (user_data : UserData) (intents : option Intent.t) : string :=
  let base_prompt := Str.join Str.nl [
    "";
    "        You are " +:+ bot_name
      +:+ ", a professional business assistant at " +:+ company_name +:+ ".";
    "        ";
    "        Your role:";
    "        - Answer user questions clearly, concisely, and accurately using company-provided data";
    "        - Maintain a helpful, professional, and business-appropriate tone";
    "        - If unsure about specific details, acknowledge limitations and offer to connect with human experts";
    "        - Always include relevant resource links when available";
    "        - Focus on providing value to the user";
    "        ";
    "        Company Context:";
    "        - " +:+ company_name +:+ ": Digital transformation company";
    "        - Tagline: " +:+ Config.company_tagline config;
    "        - Services: AI/Automation, Custom Development, Cloud Solutions, Digital Experience";
    "        - Contact: " +:+ sales_email contact_info +:+ " for sales, "
      +:+ support_email contact_info +:+ " for support";
    "        " ] in
  let base_prompt :=
    match user_data with
    | Some d =>
        if decide (d = ∅) then base_prompt
        else base_prompt +:+ Str.nl +:+ Str.nl +:+ "User Context:" +:+ Str.nl
               +:+ _build_user_context d
    | None => base_prompt
    end in
  let base_prompt :=
    match intents with
    | Some i =>
        base_prompt +:+ Str.nl +:+ Str.nl +:+ "Detected Intent:" +:+ Str.nl
          +:+ _build_intent_context i
    | None => base_prompt
    end in
  base_prompt +:+ Str.nl +:+ Str.nl +:+ "User Question: " +:+ user_question
    +:+ Str.nl +:+ Str.nl +:+ "Provide a helpful, accurate response:".

Definition _add_personalization (response : string) (user_data : UserData)
    : string :=
  match user_data with
  | None => response
  | Some d =>
      if decide (d = ∅) then response
      else
        let name := get_field d "name" in
        let user_type := get_field d "user_type" in
        let response :=
          if bool_decide (name ≠ "")
             && negb (Str.contains (Str.lower response) (Str.lower name))
          then
            if Str.startswith response "Hi" || Str.startswith response "Hello"
            then Str.replace_first
                   (Str.replace_first response "Hi" ("Hi " +:+ name))
                   "Hello" ("Hello " +:+ name)
            else "Hi " +:+ name +:+ "! " +:+ response
          else response in
        if bool_decide (user_type = "potential_client")
           && negb (Str.contains (Str.lower response) "business")
        then response +:+ Str.nl +:+ Str.nl
               +:+ "As a business looking for solutions, I'd be happy to discuss how we can specifically help your company grow."
        else if bool_decide (user_type = "job_seeker")
                && negb (Str.contains (Str.lower response) "career")
        then response +:+ Str.nl +:+ Str.nl
               +:+ "Since you're interested in career opportunities, I can also share information about our company culture and current openings."
        else response
  end.

(** The three candidate lists of [_add_contextual_ctas]. *)
Definition service_ctas : list string := [
  "📞 **Ready to discuss your project?** Contact our sales team at "
    +:+ sales_email contact_info;
  "📋 **Want to see similar projects?** Check out our case studies";
  "💬 **Need a custom solution?** Let's schedule a consultation" ].

Definition career_ctas : list string := [
  "💼 **Ready to apply?** Send your resume to "
    +:+ default "careers@sundewsolutions.com" (careers_email contact_info);
  "🌟 **Learn about our culture:** Visit our careers page";
  "📝 **Current openings:** Check our latest job postings" ].

Definition case_ctas : list string := [
  "🎯 **Interested in similar results?** Let's discuss your requirements";
  "📈 **Want to see more examples?** Browse our complete case studies";
  "💡 **Have a similar challenge?** Get a free consultation" ].

(** The loop over [categories]: [ctas] is empty on entry and the loop
    breaks as soon as a category extends it. *)
Fixpoint _collect_ctas (categories : list string) : list string :=
  match categories with
  | [] => []
  | category :: rest =>
      if Str.contains (Str.lower category) "service" then service_ctas
      else if Str.contains (Str.lower category) "career" then career_ctas
      else if Str.contains (Str.lower category) "case"
              || Str.contains (Str.lower category) "success"
      then case_ctas
      else _collect_ctas rest
  end.

Definition _add_contextual_ctas (response : string)
    (intents : option Intent.t) (user_data : UserData) : Rand string :=
  match intents with
  | None => mret response
  | Some i =>
      let ctas := _collect_ctas (Intent.categories i) in
      match ctas with
      | [] => mret response
      | c :: _ =>
          selected_cta ← random_choice (take 2 ctas) c;
          mret (response +:+ Str.nl +:+ Str.nl +:+ "---" +:+ Str.nl +:+ Str.nl
                  +:+ selected_cta)
      end
  end.

Definition _add_branding_elements (response : string)
    (intents : option Intent.t) : Rand string :=
  r ← random_random;
  let response :=
    if float_lt r (Fin (3 # 10))
    then response +:+ Str.nl +:+ Str.nl +:+ "*" +:+ company_name +:+ ": "
           +:+ Config.company_tagline config +:+ "*"
    else response in
  let categories := from_option Intent.categories [] intents in
  mret (if existsb (λ cat, Str.contains (Str.lower cat) "service") categories
        then response +:+ Str.nl +:+ Str.nl
               +:+ "💡 *With 8+ years of digital transformation expertise, "
               +:+ company_name
               +:+ " has helped 100+ businesses achieve their goals.*"
        else response).

Definition LF : ascii := Ascii.ascii_of_nat 10.

Definition _format_response (response : string) : string :=
  (* \n(#{1,6}\s)  ->  \n\n\1 *)
  let response :=
    Re.sub [Re.chr LF; Re.rep "#" 1 (Some 6%nat); Re.space]
           [Re.Lit (Str.nl +:+ Str.nl); Re.Seg 1; Re.Seg 2] response in
  (* \n-\s  ->  \n\n-  *)
  let response :=
    Re.sub [Re.chr LF; Re.chr "-"; Re.space]
           [Re.Lit (Str.nl +:+ Str.nl +:+ "- ")] response in
  (* \n\*\s  ->  \n\n*  *)
  let response :=
    Re.sub [Re.chr LF; Re.chr "*"; Re.space]
           [Re.Lit (Str.nl +:+ Str.nl +:+ "* ")] response in
  (* \n{3,}  ->  \n\n *)
  let response :=
    Re.sub [Re.rep LF 3 None] [Re.Lit (Str.nl +:+ Str.nl)] response in
  Str.strip response.

Definition enhance_response (base_response : string)
    (intents : option Intent.t) (user_data : UserData) : Rand string :=
  let enhanced_response := base_response in
  let enhanced_response := _add_personalization enhanced_response user_data in
  enhanced_response ←
    _add_contextual_ctas enhanced_response intents user_data;
  enhanced_response ← _add_branding_elements enhanced_response intents;
  mret (_format_response enhanced_response).

End ResponseEnhancer.

(** ** app/chat_engine.py *)

(** [self.memory]: the messages of the conversation, as (role, text). *)
Definition Memory : Type := list (string * string).

(** The retrieval chain built around the language model: given the
    question, the matched documents and the memory it returns a reply or
    raises, and leaves a memory behind. *)
Definition Chain : Type :=
  string → list document → Memory → result string * Memory.

(** What one turn can change: the generator of [random] and the memory. *)
Record Session : Type := {
  random_state : RandomState;
  memory : Memory;
}.

Definition APOLOGY : string :=
  "I apologize, but I encountered an error. Please try rephrasing your question.".

Section ChatEngine.
Context {tensor : Type}.
Variable encode : string → tensor.
Variable pytorch_cos_sim : tensor → tensor → pyfloat.
Variable fs : filesystem.
Variable classifier : string → list string → result Classification.
(** [self.llm]: [None] without an API key. *)
Variable llm : option Chain.
Variable config : Config.t.

Definition _generate_fallback_response (intents : Intent.t)
    (user_data : UserData) : string :=
  let response :=
    "I'd be happy to help you with information about Sundew Solutions! " in
  let response :=
    match Intent.categories intents with
    | category :: _ =>
        if Str.contains (Str.lower category) "service"
        then response +:+ "We offer comprehensive digital transformation services including AI chatbots, custom web development, and automation solutions. "
        else if Str.contains (Str.lower category) "career"
        then response +:+ "We're always looking for talented individuals! Check out our careers page for current openings. "
        else if Str.contains (Str.lower category) "case"
        then response +:+ "Our case studies showcase successful projects across various industries. "
        else response
    | [] => response
    end in
  response +:+ "For specific information, please contact our team at sales@sundewsolutions.com or visit our website.".

Definition process_user_input (user_input : string) (user_data : UserData)
    (st : Session) : string * Session :=
  match detect_intents classifier config user_input None None with
  | Raise _ => (APOLOGY, st)
  | Ok intents =>
      let matched_docs :=
        rank_documents encode pytorch_cos_sim fs config user_input
          (Intent.folders intents) (Some 3) None in
      match matched_docs, llm with
      | _ :: _, Some chain =>
          let enhanced_prompt :=
            build_professional_prompt config user_input user_data
              (Some intents) in
          match chain enhanced_prompt matched_docs (memory st) with
          | (Ok response, memory') =>
              let '(enhanced_response, random_state') :=
                enhance_response config response (Some intents) user_data
                  (random_state st) in
              (enhanced_response,
               {| random_state := random_state'; memory := memory' |})
          | (Raise _, memory') =>
              (APOLOGY,
               {| random_state := random_state st; memory := memory' |})
          end
      | _, _ => (_generate_fallback_response intents user_data, st)
      end
  end.

End ChatEngine.

(** ** utils/document_processor.py: summaries and keyword search *)

(** [s[:k]] on a string, for any integer [k]. *)
Definition str_slice_to (s : string) (k : Z) : string :=
  if k <? 0 then Str.take (String.length s - Z.to_nat (- k)) s
  else Str.take (Z.to_nat k) s.

(** The loop of [get_document_summary]: it stops at the first sentence that
    would take the summary beyond [max_length]. *)
Fixpoint _summary_loop (max_length : Z) (summary : string)
    (sentences : list string) : string :=
  match sentences with
  | [] => summary
  | sentence :: rest =>
      if Z.of_nat (String.length (summary +:+ sentence)) >? max_length
      then summary
      else _summary_loop max_length
             (summary +:+ Str.strip sentence +:+ ". ") rest
  end.

Definition get_document_summary (content : string) (max_length : option Z)
    : string :=
  let max_length := default 200 max_length in
  if decide (content = "") then "No content available"
  else
    let sentences := Str.split "." content in
    let summary := _summary_loop max_length "" sentences in
    if decide (Str.strip summary = "")
    then str_slice_to content max_length +:+ "..."
    else Str.strip summary.

(** A keyword search result: the tuple
    [(relevance, filename, content, matches)]. *)
Definition keyword_result : Type := pyfloat * string * string * nat.

Definition relevance_of (r : keyword_result) : pyfloat := r.1.1.1.
Definition matches_of (r : keyword_result) : nat := r.2.

Section KeywordSearch.
Variable fs : filesystem.

(** One iteration of the loop over the files of a folder. *)
Definition _search_file (keywords : list string)
    (results : list keyword_result) (file_path : text_file)
    : list keyword_result :=
  match file_read_result file_path with
  | ReadError => results
  | Contents text =>
      let content := Str.lower text in
      let matches :=
        length (filter (λ keyword,
                          Str.contains content (Str.lower keyword) = true)
                       keywords) in
      if (0 <? matches)%nat then
        let relevance :=
          Fin (Z.of_nat matches # Pos.of_nat (length keywords)) in
        results ++ [(relevance, file_name file_path, content, matches)]
      else results
  end.

Definition search_documents_by_keywords (keywords : list string)
    (folders : list string) : list keyword_result :=
  let results :=
    foldl (λ results folder_path,
             match fs folder_path with
             | None => results
             | Some text_files =>
                 foldl (_search_file keywords) results text_files
             end)
          [] folders in
  sort_desc relevance_of results.

End KeywordSearch.

(** ** utils/intent_detector.py: journey analysis and follow-ups *)

(** One entry of [intents_over_time]. *)
Module JourneyItem.
Record t : Type := {
  turn : Z;
  intents : list string;
  confidence : pyfloat;
}.
End JourneyItem.

(** [intent_counts[intent] = intent_counts.get(intent, 0) + 1] on a
    dictionary kept in insertion order: a key that is present keeps its
    place, a new key goes to the end. *)
Fixpoint count_intent (intent_counts : list (string * Z)) (intent : string)
    : list (string * Z) :=
  match intent_counts with
  | [] => [(intent, 1)]
  | (k, v) :: rest =>
      if decide (k = intent) then (k, v + 1) :: rest
      else (k, v) :: count_intent rest intent
  end.

(** [max(items, key=lambda x: x[1])] on a sequence that is not empty: the
    first item that no later item exceeds. *)
Definition max_by_count (first : string * Z) (rest : list (string * Z))
    : string * Z :=
  foldl (λ best item, if best.2 <? item.2 then item else best) first rest.

Definition _get_primary_focus (intents_over_time : list JourneyItem.t)
    : option (string * Z) :=
  match intents_over_time with
  | [] => None
  | _ =>
      let intent_counts :=
        foldl (λ intent_counts item,
                 foldl count_intent intent_counts (JourneyItem.intents item))
              [] intents_over_time in
      match intent_counts with
      | [] => None
      | first :: rest => Some (max_by_count first rest)
      end
  end.

Definition service_followups : list string := [
  "Would you like to see our case studies?";
  "What's your timeline for implementation?";
  "Can I connect you with our solutions expert?" ].

Definition career_followups : list string := [
  "What type of role are you interested in?";
  "Would you like to know about our company culture?";
  "Can I help you find current job openings?" ].

Definition company_followups : list string := [
  "Would you like to know about our leadership team?";
  "Are you interested in our company values?";
  "Can I tell you about our recent achievements?" ].

(** What one category adds to [suggestions]. *)
Definition _followups_for (category : string) : list string :=
  if Str.contains (Str.lower category) "service" then service_followups
  else if Str.contains (Str.lower category) "career" then career_followups
  else if Str.contains (Str.lower category) "company"
          || Str.contains (Str.lower category) "about"
  then company_followups
  else [].

(** [list(dict.fromkeys(l))]: the elements of [l] in order, each kept at its
    first occurrence; [seen] holds the keys already in the dictionary. *)
Fixpoint fromkeys_go (seen : list string) (l : list string) : list string :=
  match l with
  | [] => []
  | x :: l' =>
      if decide (x ∈ seen) then fromkeys_go seen l'
      else x :: fromkeys_go (x :: seen) l'
  end.

Definition dict_fromkeys (l : list string) : list string := fromkeys_go [] l.

Definition get_suggested_followups (detected_intents : Intent.t)
    : list string :=
  let suggestions :=
    foldl (λ suggestions category, suggestions ++ _followups_for category)
          [] (Intent.categories detected_intents) in
  take 3 (dict_fromkeys suggestions).

(** ** utils/response_enhancer.py: social proof, starters, next questions *)

Definition services_proofs : list string := [
  "✨ *Trusted by 100+ businesses across various industries*";
  "🏆 *Award-winning digital transformation partner*";
  "📈 *Average 40% efficiency improvement for our clients*" ].

Definition careers_proofs : list string := [
  "🌟 *Rated as 'Great Place to Work' by our employees*";
  "📚 *Comprehensive training and career development programs*";
  "🤝 *Collaborative and inclusive work environment*" ].

Definition company_proofs : list string := [
  "🚀 *8+ years of digital innovation excellence*";
  "🌍 *Serving clients globally with local expertise*";
  "💡 *Leading digital transformation thought leadership*" ].

Fixpoint add_social_proof (response : string) (intent_categories : list string)
    : Rand string :=
  match intent_categories with
  | [] => mret response
  | category :: rest =>
      if Str.contains (Str.lower category) "service" then
        proof ← random_choice services_proofs "";
        mret (response +:+ Str.nl +:+ Str.nl +:+ proof)
      else if Str.contains (Str.lower category) "career" then
        proof ← random_choice careers_proofs "";
        mret (response +:+ Str.nl +:+ Str.nl +:+ proof)
      else if Str.contains (Str.lower category) "company"
              || Str.contains (Str.lower category) "about" then
        proof ← random_choice company_proofs "";
        mret (response +:+ Str.nl +:+ Str.nl +:+ proof)
      else add_social_proof response rest
  end.

(** One turn of a conversation history, as the functions below read it:
    [turn.get('user', '')]. *)
Module Turn.
Record t : Type := {
  turn : Z;
  bot : string;
  user : option string;
}.
End Turn.

Definition turn_user_lower (t : Turn.t) : string :=
  Str.lower (default "" (Turn.user t)).

(** [l[-n:]] on a list, for [n > 0]. *)
Definition last_n {A} (n : nat) (l : list A) : list A :=
  drop (length l - n) l.

Definition services_questions : list string := [
  "What's your timeline for implementation?";
  "What's your approximate budget range?";
  "Would you like to see some case studies?";
  "Can I connect you with our solutions architect?" ].

Definition careers_questions : list string := [
  "What type of role interests you most?";
  "Are you looking for remote or on-site positions?";
  "Would you like to know about our company culture?";
  "Can I help you find current job openings?" ].

Definition company_questions : list string := [
  "Would you like to know about our leadership team?";
  "Are you interested in our recent projects?";
  "Would you like to hear about our company values?";
  "Can I tell you about our industry expertise?" ].

Definition technical_questions : list string := [
  "Would you like a technical deep-dive?";
  "Are you interested in implementation details?";
  "Would you like to speak with our technical team?";
  "Can I share relevant case studies?" ].

Definition suggest_next_questions (current_topic : string)
    (conversation_history : list Turn.t) : list string :=
  let recent := last_n 3 conversation_history in
  let topic_questions :=
    if existsb (λ turn, Str.contains (turn_user_lower turn) "career") recent
    then careers_questions
    else if existsb (λ turn, Str.contains (turn_user_lower turn) "about")
                    recent
    then company_questions
    else if existsb
              (λ turn,
                 existsb (λ tech, Str.contains (turn_user_lower turn) tech)
                         ["technical"; "api"; "integration"; "architecture"])
              recent
    then technical_questions
    else services_questions in
  take 3 topic_questions.

Section ConversationStarter.
Variable config : Config.t.

(** The dictionary [starters], as a lookup by user type. *)
Definition _starters (greeting : string) (user_type : string)
    : option (list string) :=
  if decide (user_type = "potential_client") then Some [
    greeting +:+ "I'm excited to help you find the perfect digital solution for your business. What challenges are you looking to solve?";
    greeting +:+ "Welcome to " +:+ company_name config
      +:+ "! I'd love to learn about your business needs and how we can help you grow.";
    greeting +:+ "Great to meet you! What type of digital transformation are you considering for your company?" ]
  else if decide (user_type = "job_seeker") then Some [
    greeting +:+ "Welcome to " +:+ company_name config
      +:+ "! I'm thrilled you're interested in joining our team. What type of role are you looking for?";
    greeting +:+ "Thanks for your interest in careers at "
      +:+ company_name config
      +:+ "! Tell me about your background and what excites you about working with us.";
    greeting +:+ "I'd love to help you explore opportunities at "
      +:+ company_name config +:+ ". What skills and experience do you bring?" ]
  else if decide (user_type = "information_seeker") then Some [
    greeting +:+ "I'm here to share information about "
      +:+ company_name config
      +:+ " and our digital solutions. What would you like to know?";
    greeting +:+ "Welcome! I'm happy to tell you about "
      +:+ company_name config
      +:+ ", our services, and our approach to digital transformation.";
    greeting +:+ "Great to meet you! What aspects of "
      +:+ company_name config +:+ " are you most curious about?" ]
  else if decide (user_type = "general") then Some [
    greeting +:+ "I'm " +:+ bot_name config
      +:+ ", your virtual assistant at " +:+ company_name config
      +:+ ". How can I help you today?";
    greeting +:+ "Welcome to " +:+ company_name config
      +:+ "! I'm here to answer any questions about our services, company, or opportunities.";
    greeting +:+ "Hi there! I'm ready to help with any questions about "
      +:+ company_name config +:+ ". What can I assist you with?" ]
  else None.

Definition generate_conversation_starter (user_data : gmap string string)
    : Rand string :=
  let user_type := default "general" (user_data !! "user_type") in
  let name := get_field user_data "name" in
  let greeting :=
    if decide (name = "") then "Hello! " else "Hello " +:+ name +:+ "! " in
  random_choice
    (default (default [] (_starters greeting "general"))
             (_starters greeting user_type))
    "".

End ConversationStarter.

(** ** Notions used to state the properties *)

(** The utterance contains a trigger keyword of the entry, compared in
    lower case. *)
Definition entry_hit (user_prompt : string) (entry : string * list string)
    : bool :=
  existsb (λ keyword, Str.contains (Str.lower user_prompt) (Str.lower keyword))
          entry.2.

(** What one entry of [category_keywords] adds to the keyword matches. *)
Definition keyword_hit (user_prompt : string) (entry : string * list string)
    : option Detail.t :=
  keyword ← find (λ keyword,
                   Str.contains (Str.lower user_prompt) (Str.lower keyword))
                 entry.2;
  Some {| Detail.category := entry.1;
          Detail.keyword := Some keyword;
          Detail.confidence := None;
          Detail.method := "keyword" |}.

(** The utterance contains some configured trigger keyword. *)
Definition keyword_occurs (config : Config.t) (user_prompt : string) : bool :=
  existsb (entry_hit user_prompt) (Config.category_keywords config).

(** Every category that has trigger keywords has a folder, and so has the
    default category: "each category maps to exactly one corpus partition". *)
Definition keyword_folders_configured (config : Config.t) : bool :=
  forallb (λ entry : string * list string,
             bool_decide (is_Some (Config.category_folders config !! entry.1)))
          (Config.category_keywords config).

Definition default_folder_configured (config : Config.t) : bool :=
  bool_decide (is_Some (Config.category_folders config !! GENERAL)).

(** A document whose score reaches the threshold [m]. *)
Definition above (m : pyfloat) (d : document) : Prop :=
  float_ge (similarity_of d) m = true.

(** A label passes both filters of the classifier path. *)
Definition survives (top_score min_confidence score_margin score : pyfloat)
    : bool :=
  float_ge score min_confidence
  && float_le (float_sub top_score score) score_margin.

(** The three families of calls to action, and the family a category
    belongs to: the tests of [_add_contextual_ctas], in their order. *)
Inductive family : Type := Service | Career | CaseStudy.

Global Instance family_eq_dec : EqDecision family.
Proof. solve_decision. Defined.

Definition family_of (category : string) : option family :=
  if Str.contains (Str.lower category) "service" then Some Service
  else if Str.contains (Str.lower category) "career" then Some Career
  else if Str.contains (Str.lower category) "case"
          || Str.contains (Str.lower category) "success"
  then Some CaseStudy
  else None.

Definition candidates (config : Config.t) (f : family) : list string :=
  match f with
  | Service => service_ctas config
  | Career => career_ctas config
  | CaseStudy => case_ctas
  end.

(** The family of the first detected category that belongs to one. *)
Definition first_category_family (categories : list string) : option family :=
  head (omap family_of categories).

(** The first family, in the order service, career, case study, that some
    detected category belongs to. *)
Definition priority_family (categories : list string) : option family :=
  find (λ f, existsb (λ c, bool_decide (family_of c = Some f)) categories)
       [Service; Career; CaseStudy].

(** The line that separates a reply from its call to action. *)
Definition cta_separator : string :=
  Str.nl +:+ Str.nl +:+ "---" +:+ Str.nl +:+ Str.nl.

(** Two floats that are the same number. *)
Definition float_same (x y : pyfloat) : Prop :=
  match x, y with
  | Fin a, Fin b => (a == b)%Q
  | NaN, NaN => True
  | _, _ => False
  end.

(** Two detail entries, and two intent results, that are the same
    dictionary. *)
Definition detail_same (d e : Detail.t) : Prop :=
  Detail.category d = Detail.category e
  ∧ Detail.keyword d = Detail.keyword e
  ∧ option_Forall2 float_same (Detail.confidence d) (Detail.confidence e)
  ∧ Detail.method d = Detail.method e.

Definition intent_same (i j : Intent.t) : Prop :=
  Intent.method i = Intent.method j
  ∧ Intent.categories i = Intent.categories j
  ∧ Intent.folders i = Intent.folders j
  ∧ float_same (Intent.confidence i) (Intent.confidence j)
  ∧ Forall2 detail_same (Intent.details i) (Intent.details j).

(** What [_process_file] makes of a file that can be read and is not blank,
    and the documents that qualify for a ranking: made from such a file of
    an existing folder among those searched, with a score that reaches the
    threshold. *)
Section Candidates.
Context {tensor : Type}.
Variable encode : string → tensor.
Variable pytorch_cos_sim : tensor → tensor → pyfloat.
Variable fs : filesystem.

Definition document_of (query_embedding : tensor) (file_path : text_file)
    (text : string) : document :=
  (pytorch_cos_sim query_embedding
     (encode (file_name file_path +:+ " "
              +:+ Str.take 1000 (Str.strip text))),
   file_name file_path, Str.strip text).

Definition file_candidate (query_embedding : tensor)
    (min_similarity : pyfloat) (files : list text_file) (d : document)
    : Prop :=
  ∃ file_path text,
    file_path ∈ files
    ∧ file_read_result file_path = Contents text
    ∧ Str.strip text ≠ ""
    ∧ d = document_of query_embedding file_path text
    ∧ float_ge (similarity_of d) min_similarity = true.

Definition candidate (folders : list string) (query_embedding : tensor)
    (min_similarity : pyfloat) (d : document) : Prop :=
  ∃ folder files,
    folder ∈ folders
    ∧ fs folder = Some files
    ∧ file_candidate query_embedding min_similarity files d.

End Candidates.

(** A keyword search result as [_search_file] builds it for a list of
    keywords. *)
Definition keyword_result_ok (keywords : list string) (r : keyword_result)
    : Prop :=
  (1 ≤ matches_of r ≤ length keywords)%nat
  ∧ relevance_of r
    = Fin (Z.of_nat (matches_of r) # Pos.of_nat (length keywords))
  ∧ float_lt (Fin 0) (relevance_of r) = true
  ∧ float_le (relevance_of r) (Fin 1) = true.

(** The detail entry of a label selected by the classifier path. *)
Definition ml_detail (entry : string * pyfloat) : Detail.t :=
  {| Detail.category := entry.1;
     Detail.keyword := None;
     Detail.confidence := Some entry.2;
     Detail.method := "ml" |}.

(** The labels, with their scores, that pass both filters. *)
Definition ml_selected (config : Config.t) (res : Classification)
    (top_score : pyfloat) (min_confidence score_margin : option pyfloat)
    : list (string * pyfloat) :=
  filter (λ entry : string * pyfloat,
            survives top_score
              (default (Config.min_confidence config) min_confidence)
              (default (Fin (5 # 100)) score_margin) entry.2 = true)
         (zip (labels res) (scores res)).

(** The result of [_get_fallback_intent] when the default category has the
    folder [folder]. *)
Definition fallback_intent (folder : string) : Intent.t :=
  {| Intent.method := "fallback";
     Intent.categories := [GENERAL];
     Intent.folders := [folder];
     Intent.confidence := Fin 1;
     Intent.details :=
       [ {| Detail.category := GENERAL;
            Detail.keyword := None;
            Detail.confidence := None;
            Detail.method := "fallback" |} ] |}.

(** [intent_counts.get(intent, 0)] *)
Fixpoint dict_get (intent_counts : list (string * Z)) (intent : string) : Z :=
  match intent_counts with
  | [] => 0
  | (k, v) :: rest => if decide (k = intent) then v else dict_get rest intent
  end.

(** How often an intent occurs in a list of intents. *)
Definition occurrences (intent : string) (l : list string) : Z :=
  Z.of_nat (length (filter (λ x, x = intent) l)).

(** The social proofs that a category calls for: the tests of
    [add_social_proof], in their order. *)
Definition social_proofs_for (category : string) : list string :=
  if Str.contains (Str.lower category) "service" then services_proofs
  else if Str.contains (Str.lower category) "career" then careers_proofs
  else if Str.contains (Str.lower category) "company"
          || Str.contains (Str.lower category) "about"
  then company_proofs
  else [].

(** The first list of a sequence that is not empty, if any. *)
Definition first_nonempty {A} (ls : list (list A)) : option (list A) :=
  head (filter (λ l, l ≠ []) ls).

(** The greeting of [generate_conversation_starter]. *)
Definition starter_greeting (user_data : gmap string string) : string :=
  if decide (get_field user_data "name" = "") then "Hello! "
  else "Hello " +:+ get_field user_data "name" +:+ "! ".

(** The fallback reply in the words of its description: guidance templated
    per category and keyed on the top detected category, followed by a
    generic contact pointer.  The key of a category is the first of the
    words service, career and case that it contains, compared in lower
    case; a category with none of them has no key, and no guidance. *)
Inductive fallback_key : Type := ServiceKey | CareerKey | CaseKey.

Definition fallback_key_of (category : string) : option fallback_key :=
  if Str.contains (Str.lower category) "service" then Some ServiceKey
  else if Str.contains (Str.lower category) "career" then Some CareerKey
  else if Str.contains (Str.lower category) "case" then Some CaseKey
  else None.

Definition top_key (categories : list string) : option fallback_key :=
  head categories ≫= fallback_key_of.

Definition fallback_guidance (key : option fallback_key) : string :=
  match key with
  | Some ServiceKey =>
      "We offer comprehensive digital transformation services including AI chatbots, custom web development, and automation solutions. "
  | Some CareerKey =>
      "We're always looking for talented individuals! Check out our careers page for current openings. "
  | Some CaseKey =>
      "Our case studies showcase successful projects across various industries. "
  | None => ""
  end.

Definition fallback_opening : string :=
  "I'd be happy to help you with information about Sundew Solutions! ".

Definition contact_pointer : string :=
  "For specific information, please contact our team at sales@sundewsolutions.com or visit our website.".

Definition keyed_fallback (categories : list string) : string :=
  fallback_opening +:+ fallback_guidance (top_key categories)
    +:+ contact_pointer.

(** ** A small world to run the model in *)

Module Demo.

(** An embedder that keeps the text, and a similarity read off the name
    the combined text starts with. *)
Definition encode (text : string) : string := text.

Definition cos_sim (query doc : string) : pyfloat :=
  if String.prefix "pricing.txt" doc then Fin (91 # 100)
  else if String.prefix "team.txt" doc then Fin (40 # 100)
  else if String.prefix "legal.txt" doc then Fin (1 # 10)
  else NaN.

Definition fs : filesystem := λ folder_path,
  if decide (folder_path = "data/Services/") then
    Some [ {| file_name := "team.txt";
              file_read_result := Contents "Our delivery team." |};
           {| file_name := "broken.txt"; file_read_result := ReadError |};
           {| file_name := "legal.txt";
              file_read_result := Contents "Terms of service." |};
           {| file_name := "blank.txt";
              file_read_result := Contents "   " |};
           {| file_name := "pricing.txt";
              file_read_result := Contents "  Service pricing.  " |} ]
  else if decide (folder_path = "data/Blog/") then Some []
  else None.

(** A classifier that fails on the utterance ["crash"] and otherwise
    scores every label 0.3. *)
Definition classifier (text : string) (candidate_labels : list string)
    : result Classification :=
  if decide (text = "crash") then Raise (RuntimeError "model unavailable")
  else Ok {| labels := candidate_labels;
             scores := (λ _, Fin (3 # 10)) <$> candidate_labels |}.

Definition chain : Chain := λ question docs memory,
  (Ok "Hello! We build chatbots.",
   memory ++ [("user", question); ("assistant", "Hello! We build chatbots.")]).

Definition rng : RandomState :=
  {| draws := λ n, N.of_nat n; cursor := 0 |}.

(** A generator whose draws all read as 0.5. *)
Definition quiet_rng : RandomState :=
  {| draws := λ _, (2 ^ 52)%N; cursor := 0 |}.

Definition session : Session :=
  {| random_state := rng; memory := [] |}.

End Demo.

(** More of that world: classifiers that score, a configuration with a
    folder missing. *)
Module Cases.

(** A classifier with two labels near the top. *)
Definition scoring_classifier (text : string) (candidate_labels : list string)
    : result Classification :=
  Ok {| labels := [SERVICES; SUCCESS; CASES; GENERAL];
        scores := [Fin (90 # 100); Fin (87 # 100); Fin (60 # 100);
                   Fin (10 # 100)] |}.

(** A classifier that answers with a label that is not a category. *)
Definition stray_classifier (text : string) (candidate_labels : list string)
    : result Classification :=
  Ok {| labels := ["pricing plans"; GENERAL];
        scores := [Fin (90 # 100); Fin (20 # 100)] |}.

(** The shipped configuration without the folder of the services
    category. *)
Definition broken_config : Config.t := {|
  Config.min_similarity_threshold :=
    Config.min_similarity_threshold load_config;
  Config.max_documents := Config.max_documents load_config;
  Config.min_confidence := Config.min_confidence load_config;
  Config.categories := Config.categories load_config;
  Config.category_folders := delete SERVICES (Config.category_folders load_config);
  Config.category_keywords := Config.category_keywords load_config;
  Config.company_name := Config.company_name load_config;
  Config.company_tagline := Config.company_tagline load_config;
  Config.bot_name := Config.bot_name load_config;
  Config.contact := Config.contact load_config;
|}.

Definition team_document : document :=
  (Fin (40 # 100), "team.txt", "Our delivery team.").

Definition three_topics : Intent.t :=
  {| Intent.method := "keyword";
     Intent.categories := [CAREER; SERVICES; BLOG];
     Intent.folders := [];
     Intent.confidence := Fin 1;
     Intent.details := [] |}.

Definition two_topics : Intent.t :=
  {| Intent.method := "keyword";
     Intent.categories := [CAREER; SERVICES];
     Intent.folders := [];
     Intent.confidence := Fin 1;
     Intent.details := [] |}.

(** A user known by name only. *)
Definition ada : gmap string string := {[ "name" := "Ada" ]}.

End Cases.

(** * Properties *)

(** ** Floats *)

Lemma float_ge_finite_l x y : float_ge x y = true → is_finite x.
Proof. by destruct x, y. Qed.

Lemma float_ge_trans x y z :
  float_ge x y = true → float_ge y z = true → float_ge x z = true.
Proof.
  destruct x as [|a], y as [|b], z as [|c]; simpl; try done.
  rewrite !Qle_bool_iff. intros ??. by apply Qle_trans with b.
Qed.

Lemma float_lt_ge x y : float_lt x y = true → float_ge y x = true.
Proof.
  destruct x as [|a], y as [|b]; simpl; try done.
  rewrite negb_true_iff, Qle_bool_iff. intros Hn.
  destruct (Qlt_le_dec a b) as [?|Hle]; [by apply Qlt_le_weak|].
  apply Qle_bool_iff in Hle. congruence.
Qed.

Lemma float_not_lt_ge x y :
  is_finite x → is_finite y → float_lt x y = false → float_ge x y = true.
Proof.
  destruct x as [|a], y as [|b]; simpl; try done.
  intros _ _. by rewrite negb_false_iff.
Qed.

(** ** Stable descending sort *)

Section SortFacts.
Context {A : Type} (key : A → pyfloat).

Lemma insert_desc_perm x l : insert_desc key x l ≡ₚ x :: l.
Proof.
  induction l as [|y l IH]; simpl; [done|].
  destruct (float_lt (key x) (key y)); [|done].
  rewrite IH. apply Permutation_swap.
Qed.

Lemma sort_desc_perm l : sort_desc key l ≡ₚ l.
Proof.
  induction l as [|x l IH]; simpl; [done|].
  fold (sort_desc key l). by rewrite insert_desc_perm, IH.
Qed.

Lemma insert_desc_sorted x l :
  is_finite (key x) →
  Forall (λ y, is_finite (key y)) l →
  StronglySorted (key_ge key) l →
  StronglySorted (key_ge key) (insert_desc key x l).
Proof.
  intros Hx Hfin Hs.
  induction l as [|y l IH]; simpl.
  { repeat constructor. }
  apply Forall_cons in Hfin as [Hy Hfin].
  apply StronglySorted_inv in Hs as [Hs Hyl].
  destruct (float_lt (key x) (key y)) eqn:Hlt.
  - constructor; [by apply IH|].
    rewrite insert_desc_perm. constructor; [|done].
    by apply float_lt_ge.
  - assert (key_ge key x y) as Hxy by by apply float_not_lt_ge.
    constructor; [by constructor|].
    constructor; [done|].
    eapply Forall_impl; [exact Hyl|].
    intros z Hyz. by eapply float_ge_trans.
Qed.

Lemma sort_desc_sorted l :
  Forall (λ y, is_finite (key y)) l →
  StronglySorted (key_ge key) (sort_desc key l).
Proof.
  induction l as [|x l IH]; simpl; intros Hfin; [constructor|].
  apply Forall_cons in Hfin as [Hx Hfin]. fold (sort_desc key l).
  apply insert_desc_sorted; [done| |by apply IH].
  by rewrite sort_desc_perm.
Qed.
End SortFacts.

Lemma slice_to_take {A} (l : list A) k : ∃ n, slice_to l k = take n l.
Proof. unfold slice_to. destruct (k <? 0); eauto. Qed.

Lemma slice_to_length {A} (l : list A) k :
  0 ≤ k → Z.of_nat (length (slice_to l k)) ≤ k.
Proof.
  intros Hk. unfold slice_to.
  destruct (Z.ltb_spec k 0); [lia|]. rewrite length_take. lia.
Qed.

(** ** Document ranking *)

Section DocumentProcessorFacts.
Context {tensor : Type}.
Variable encode : string → tensor.
Variable pytorch_cos_sim : tensor → tensor → pyfloat.
Variable fs : filesystem.
Variable config : Config.t.

Lemma _process_file_above q m results f :
  Forall (above m) results →
  Forall (above m) (_process_file encode pytorch_cos_sim q m results f).
Proof.
  intros Hres. unfold _process_file.
  destruct (file_read_result f) as [|text]; [done|].
  case_decide; [done|].
  destruct (float_ge _ m) eqn:Hge; [|done].
  apply Forall_app. split; [done|]. by repeat constructor.
Qed.

Lemma _process_folder_above folder q m :
  Forall (above m) (_process_folder encode pytorch_cos_sim fs folder q m).
Proof.
  unfold _process_folder. destruct (fs folder) as [files|]; [|done].
  assert (∀ acc, Forall (above m) acc →
    Forall (above m)
      (foldl (_process_file encode pytorch_cos_sim q m) acc files)) as H.
  { induction files as [|f files IH]; simpl; [done|].
    intros acc Hacc. by apply IH, _process_file_above. }
  by apply H.
Qed.

(** The accumulation over the folders is the concatenation of what each
    folder contributes. *)
Lemma collect_folders (g : string → list document) folders acc :
  foldl (λ results folder, results ++ g folder) acc folders
  = acc ++ concat (g <$> folders).
Proof.
  revert acc. induction folders as [|f folders IH]; simpl; intros acc.
  - by rewrite app_nil_r.
  - by rewrite IH, app_assoc.
Qed.

(** C1: the list returned by [rank_documents] is sorted by non-increasing
    similarity, each of its scores is at least the minimum similarity in
    force, and, the limit in force being non-negative, it has at most that
    many elements.  The limit and the minimum are the arguments, or the
    configured values where an argument is [None]. *)
Theorem rank_documents_sorted_above_bounded
    (user_prompt : string) (folders : list string)
    (top_k : option Z) (min_similarity : option pyfloat) :
  0 ≤ default (Config.max_documents config) top_k →
  StronglySorted
    (λ d1 d2, float_ge (similarity_of d1) (similarity_of d2) = true)
    (rank_documents encode pytorch_cos_sim fs config
       user_prompt folders top_k min_similarity)
  ∧ Forall
      (λ d, float_ge (similarity_of d)
              (default (Config.min_similarity_threshold config)
                 min_similarity) = true)
      (rank_documents encode pytorch_cos_sim fs config
         user_prompt folders top_k min_similarity)
  ∧ Z.of_nat (length (rank_documents encode pytorch_cos_sim fs config
                        user_prompt folders top_k min_similarity))
    ≤ default (Config.max_documents config) top_k.
Proof.
  intros Hk. unfold rank_documents.
  set (m := default _ min_similarity).
  set (k := default _ top_k) in *.
  rewrite collect_folders. simpl.
  set (results := concat _).
  assert (Forall (above m) results) as Hres.
  { apply Forall_concat, Forall_fmap, Forall_true.
    intros folder. apply _process_folder_above. }
  assert (Forall (above m) (sort_desc similarity_of results)) as Hsorted_above.
  { by rewrite sort_desc_perm. }
  assert (StronglySorted (key_ge similarity_of)
            (sort_desc similarity_of results)) as Hsorted.
  { apply sort_desc_sorted. eapply Forall_impl; [exact Hres|].
    intros d Hd. by eapply float_ge_finite_l. }
  destruct (slice_to_take (sort_desc similarity_of results) k) as [n Hn].
  split_and!.
  - rewrite Hn. rewrite <-(take_drop n) in Hsorted.
    by apply StronglySorted_app_1_l in Hsorted.
  - rewrite Hn. by apply Forall_take.
  - by apply slice_to_length.
Qed.

(** C8: a folder that does not exist contributes no document, and the
    ranking is the one obtained from the other folders alone.  (The
    function is total: no exception can come out of it.) *)
Theorem rank_documents_missing_folder
    (user_prompt : string) (before after : list string) (folder : string)
    (top_k : option Z) (min_similarity : option pyfloat) :
  fs folder = None →
  (∀ q m, _process_folder encode pytorch_cos_sim fs folder q m = [])
  ∧ rank_documents encode pytorch_cos_sim fs config user_prompt
      (before ++ folder :: after) top_k min_similarity
    = rank_documents encode pytorch_cos_sim fs config user_prompt
        (before ++ after) top_k min_similarity.
Proof.
  intros Hmissing.
  assert (∀ q m, _process_folder encode pytorch_cos_sim fs folder q m = [])
    as Hempty.
  { intros q m. unfold _process_folder. by rewrite Hmissing. }
  split; [done|].
  unfold rank_documents. rewrite !collect_folders.
  by rewrite !fmap_app, !concat_app, fmap_cons, concat_cons, Hempty.
Qed.

End DocumentProcessorFacts.

(** ** Intent detection *)

Ltac unfold_result :=
  unfold mbind, result_bind, mret, result_ret, try_except in *.

Lemma mapM_getitem_Forall2 {V} (m : gmap string V) (keys : list string) vs :
  mapM (getitem m) keys = Ok vs →
  Forall2 (λ k v, m !! k = Some v) keys vs.
Proof.
  revert vs. induction keys as [|k keys IH]; simpl; intros vs Hvs.
  { injection Hvs as <-. constructor. }
  unfold_result. unfold getitem at 1 in Hvs.
  destruct (m !! k) as [v|] eqn:Hk; [|done].
  destruct (mapM (getitem m) keys) as [vs'|] eqn:Hrec; [|done].
  injection Hvs as <-. constructor; [done|]. by apply IH.
Qed.

Lemma mapM_getitem_Ok {V} (m : gmap string V) (keys : list string) :
  Forall (λ k, is_Some (m !! k)) keys → ∃ vs, mapM (getitem m) keys = Ok vs.
Proof.
  induction 1 as [|k keys [v Hk] _ [vs IH]]; simpl; [by eexists|].
  unfold_result. unfold getitem at 1. rewrite Hk, IH. by eexists.
Qed.

Lemma mapM_fmap {A B C} (f : B → result C) (g : A → B) (l : list A) :
  mapM (λ x, f (g x)) l = mapM f (g <$> l).
Proof. induction l as [|x l IH]; simpl; [done|]. by rewrite IH. Qed.

Section IntentDetectorFacts.
Variable classifier : string → list string → result Classification.
Variable config : Config.t.

Lemma _detect_by_keywords_omap user_prompt :
  _detect_by_keywords config user_prompt
  = omap (keyword_hit user_prompt) (Config.category_keywords config).
Proof.
  unfold _detect_by_keywords.
  assert (∀ entries acc,
    foldl (_keyword_step (Str.lower user_prompt)) acc entries
    = acc ++ omap (keyword_hit user_prompt) entries) as H.
  { induction entries as [|[category keywords] entries IH]; intros acc; simpl.
    - by rewrite app_nil_r.
    - rewrite IH. unfold keyword_hit at 2. simpl.
      destruct (find _ keywords); simpl; [by rewrite <-app_assoc|done]. }
  by rewrite H.
Qed.

Lemma keyword_hit_is_Some user_prompt entry :
  is_Some (keyword_hit user_prompt entry) ↔ entry_hit user_prompt entry = true.
Proof.
  unfold keyword_hit, entry_hit. destruct entry as [category keywords]; simpl.
  induction keywords as [|kw keywords IH]; simpl.
  - split; [by intros [? ?]|done].
  - destruct (Str.contains _ _); simpl; [|done].
    split; [done|]. by eexists.
Qed.

Lemma keyword_hit_category user_prompt entry d :
  keyword_hit user_prompt entry = Some d → Detail.category d = entry.1.
Proof.
  unfold keyword_hit. destruct (find _ _); simpl; [|done]. by intros [= <-].
Qed.

Lemma _detect_by_keywords_nil user_prompt :
  _detect_by_keywords config user_prompt = [] ↔
  keyword_occurs config user_prompt = false.
Proof.
  rewrite _detect_by_keywords_omap. unfold keyword_occurs.
  induction (Config.category_keywords config) as [|entry entries IH]; simpl.
  { done. }
  pose proof (keyword_hit_is_Some user_prompt entry) as Hhit.
  destruct (keyword_hit user_prompt entry) as [d|] eqn:Hd,
           (entry_hit user_prompt entry) eqn:He; simpl.
  - done.
  - destruct Hhit as [Hhit _]. by discriminate Hhit.
  - destruct Hhit as [_ [? Hhit]]; done.
  - done.
Qed.

(** The categories found by the keyword pass: those of the entries that
    are hit, in configuration order. *)
Lemma _detect_by_keywords_categories user_prompt :
  Detail.category <$> _detect_by_keywords config user_prompt
  = (fst <$> filter (λ entry, entry_hit user_prompt entry = true)
                    (Config.category_keywords config)).
Proof.
  rewrite _detect_by_keywords_omap.
  induction (Config.category_keywords config) as [|entry entries IH]; simpl.
  { done. }
  pose proof (keyword_hit_is_Some user_prompt entry) as Hhit.
  rewrite filter_cons.
  destruct (keyword_hit user_prompt entry) as [d|] eqn:Hd; simpl.
  - rewrite decide_True by (apply Hhit; by eexists).
    rewrite fmap_cons. f_equal; [by apply (keyword_hit_category user_prompt entry)|apply IH].
  - rewrite decide_False; [done|].
    intros He. apply Hhit in He as [? ?]. done.
Qed.

Lemma _get_fallback_intent_Ok :
  default_folder_configured config = true →
  ∃ folder,
    Config.category_folders config !! GENERAL = Some folder
    ∧ _get_fallback_intent config
      = Ok {| Intent.method := "fallback";
              Intent.categories := [GENERAL];
              Intent.folders := [folder];
              Intent.confidence := Fin 1;
              Intent.details :=
                [ {| Detail.category := GENERAL;
                     Detail.keyword := None;
                     Detail.confidence := None;
                     Detail.method := "fallback" |} ] |}.
Proof.
  intros [folder Hfolder]%bool_decide_eq_true. exists folder.
  split; [done|]. unfold _get_fallback_intent, getitem.
  by rewrite Hfolder.
Qed.

Lemma keyword_categories_configured user_prompt :
  keyword_folders_configured config = true →
  Forall (λ c, is_Some (Config.category_folders config !! c))
    (Detail.category <$> _detect_by_keywords config user_prompt).
Proof.
  intros Hcfg. rewrite _detect_by_keywords_categories.
  unfold keyword_folders_configured in Hcfg.
  rewrite forallb_forall in Hcfg.
  apply Forall_fmap, Forall_forall. intros entry Hin.
  apply list_elem_of_filter in Hin as [_ Hin].
  apply list_elem_of_In, Hcfg in Hin. by apply bool_decide_eq_true in Hin.
Qed.

Lemma ml_none_survives top_score min_confidence score_margin entries acc :
  Forall (λ entry : string * pyfloat,
            survives top_score min_confidence score_margin entry.2 = false)
         entries →
  foldl (_ml_step top_score min_confidence score_margin) acc entries = acc.
Proof.
  intros Hnone. revert acc.
  induction Hnone as [|[label score] entries Hs _ IH]; intros acc; simpl.
  { done. }
  unfold survives in Hs. simpl in Hs. by rewrite Hs, IH.
Qed.

(** C2, as the code has it: when the utterance contains a configured
    trigger keyword (compared in lower case), [detect_intents] returns a
    result with method ['keyword'] and confidence 1.0 whose categories are
    those of the configuration entries that have a keyword in the
    utterance, in configuration order; the keyword's category is one of
    them. *)
Theorem detect_intents_keyword_match
    (user_prompt : string) (min_confidence score_margin : option pyfloat)
    (category : string) (keywords : list string) (keyword : string) :
  keyword_folders_configured config = true →
  (category, keywords) ∈ Config.category_keywords config →
  keyword ∈ keywords →
  Str.contains (Str.lower user_prompt) (Str.lower keyword) = true →
  ∃ intents,
    detect_intents classifier config user_prompt min_confidence score_margin
    = Ok intents
    ∧ Intent.method intents = "keyword"
    ∧ Intent.confidence intents = Fin 1
    ∧ category ∈ Intent.categories intents
    ∧ Intent.categories intents
      = (filter (λ entry, entry_hit user_prompt entry = true)
                (Config.category_keywords config)).*1.
Proof.
  intros Hcfg Hentry Hkw Hocc.
  pose proof (_detect_by_keywords_categories user_prompt) as Hcats.
  pose proof (keyword_categories_configured user_prompt Hcfg) as Hconf.
  apply mapM_getitem_Ok in Hconf as [folders Hfolders].
  assert (category ∈ Detail.category <$> _detect_by_keywords config user_prompt)
    as Hin.
  { rewrite Hcats. apply (list_elem_of_fmap_2 fst _ (category, keywords)).
    apply list_elem_of_filter. split; [|done].
    unfold entry_hit. apply existsb_exists. exists keyword.
    split; [by apply list_elem_of_In|done]. }
  unfold detect_intents.
  destruct (_detect_by_keywords config user_prompt) as [|d matches] eqn:Hm.
  { by apply elem_of_nil in Hin. }
  rewrite mapM_fmap, Hfolders. unfold_result.
  eexists. split; [done|]. simpl. by split_and!.
Qed.

(** C3: with no keyword in the utterance, a classifier that answers, and
    no label passing both filters, [detect_intents] returns the single
    default category, whose detail entry carries confidence 1.0 and method
    ['fallback']; the result itself carries method ['ml'] and the top
    score as confidence. *)
Theorem detect_intents_no_survivor
    (user_prompt : string) (min_confidence score_margin : option pyfloat)
    (res : Classification) (top_score : pyfloat) (folder : string) :
  keyword_occurs config user_prompt = false →
  classifier user_prompt (Config.categories config) = Ok res →
  scores res !! 0%nat = Some top_score →
  Forall (λ entry : string * pyfloat,
            survives top_score
              (default (Config.min_confidence config) min_confidence)
              (default (Fin (5 # 100)) score_margin) entry.2 = false)
         (zip (labels res) (scores res)) →
  Config.category_folders config !! GENERAL = Some folder →
  detect_intents classifier config user_prompt min_confidence score_margin
  = Ok {| Intent.method := "ml";
          Intent.categories := [GENERAL];
          Intent.folders := [folder];
          Intent.confidence := top_score;
          Intent.details :=
            [ {| Detail.category := GENERAL;
                 Detail.keyword := None;
                 Detail.confidence := Some (Fin 1);
                 Detail.method := "fallback" |} ] |}.
Proof.
  intros Hnokw Hres Htop Hnone Hfolder.
  apply _detect_by_keywords_nil in Hnokw.
  unfold detect_intents. rewrite Hnokw.
  unfold _detect_by_ml. rewrite Hres. unfold_result.
  rewrite Htop. simpl. rewrite ml_none_survives by done.
  simpl. unfold_result. unfold getitem. by rewrite Hfolder.
Qed.

(** C4: with no keyword in the utterance and a classifier that raises,
    [detect_intents] returns (it does not raise) the fallback result: the
    single default category, confidence 1.0, method ['fallback']. *)
Theorem detect_intents_classifier_raises
    (user_prompt : string) (min_confidence score_margin : option pyfloat)
    (e : exn) :
  keyword_occurs config user_prompt = false →
  classifier user_prompt (Config.categories config) = Raise e →
  default_folder_configured config = true →
  ∃ folder,
    Config.category_folders config !! GENERAL = Some folder
    ∧ detect_intents classifier config user_prompt min_confidence
        score_margin
      = Ok {| Intent.method := "fallback";
              Intent.categories := [GENERAL];
              Intent.folders := [folder];
              Intent.confidence := Fin 1;
              Intent.details :=
                [ {| Detail.category := GENERAL;
                     Detail.keyword := None;
                     Detail.confidence := None;
                     Detail.method := "fallback" |} ] |}.
Proof.
  intros Hnokw Hraise Hcfg.
  destruct (_get_fallback_intent_Ok Hcfg) as (folder & Hfolder & Hfb).
  exists folder. split; [done|].
  apply _detect_by_keywords_nil in Hnokw.
  unfold detect_intents. rewrite Hnokw.
  unfold _detect_by_ml. rewrite Hraise. by unfold_result.
Qed.

(** With every keyword category and the default category configured,
    [detect_intents] returns: no exception leaves it. *)
Lemma detect_intents_returns
    (user_prompt : string) (min_confidence score_margin : option pyfloat) :
  keyword_folders_configured config = true →
  default_folder_configured config = true →
  ∃ intents,
    detect_intents classifier config user_prompt min_confidence score_margin
    = Ok intents.
Proof.
  intros Hkw Hgen.
  destruct (_get_fallback_intent_Ok Hgen) as (gfolder & _ & Hfb).
  unfold detect_intents.
  destruct (_detect_by_keywords config user_prompt) as [|d matches] eqn:Hm.
  - unfold _detect_by_ml.
    destruct (classifier user_prompt _) as [res|e]; unfold_result;
      [|by eexists].
    destruct (scores res !! 0%nat) as [top_score|]; simpl; [|by eexists].
    match goal with
    | |- context [mapM ?f ?l] => destruct (mapM f l) as [folders|]
    end; by eexists.
  - pose proof (keyword_categories_configured user_prompt Hkw) as Hconf.
    rewrite Hm in Hconf.
    apply mapM_getitem_Ok in Hconf as [folders Hfolders].
    rewrite mapM_fmap, Hfolders. unfold_result. by eexists.
Qed.

(** C10: on each of its three paths [detect_intents] returns a result
    whose folders and categories have the same length, the folder at an
    index being the configured folder of the category at that index. *)
Theorem detect_intents_folders_follow_categories
    (user_prompt : string) (min_confidence score_margin : option pyfloat) :
  keyword_folders_configured config = true →
  default_folder_configured config = true →
  ∃ intents,
    detect_intents classifier config user_prompt min_confidence score_margin
    = Ok intents
    ∧ Intent.method intents ∈ ["keyword"; "ml"; "fallback"]
    ∧ length (Intent.categories intents) = length (Intent.folders intents)
    ∧ Forall2 (λ category folder,
                 Config.category_folders config !! category = Some folder)
              (Intent.categories intents) (Intent.folders intents).
Proof.
  intros Hkw Hgen.
  destruct (_get_fallback_intent_Ok Hgen) as (gfolder & Hgfolder & Hfb).
  assert (∀ cats folders m dets conf,
    m ∈ ["keyword"; "ml"; "fallback"] →
    mapM (getitem (Config.category_folders config)) cats = Ok folders →
    let intents := {| Intent.method := m; Intent.categories := cats;
                      Intent.folders := folders; Intent.confidence := conf;
                      Intent.details := dets |} in
    Intent.method intents ∈ ["keyword"; "ml"; "fallback"]
    ∧ length (Intent.categories intents) = length (Intent.folders intents)
    ∧ Forall2 (λ category folder,
                 Config.category_folders config !! category = Some folder)
              (Intent.categories intents) (Intent.folders intents)) as Hok.
  { intros cats folders m dets conf Hm Hmap. simpl.
    apply mapM_getitem_Forall2 in Hmap.
    split_and!; [done|by eapply Forall2_length|done]. }
  assert (∃ intents, _get_fallback_intent config = Ok intents
    ∧ Intent.method intents ∈ ["keyword"; "ml"; "fallback"]
    ∧ length (Intent.categories intents) = length (Intent.folders intents)
    ∧ Forall2 (λ category folder,
                 Config.category_folders config !! category = Some folder)
              (Intent.categories intents) (Intent.folders intents)) as Hfallback.
  { eexists. split; [exact Hfb|]. simpl.
    split_and!; [compute_done|done|by repeat constructor]. }
  unfold detect_intents.
  destruct (_detect_by_keywords config user_prompt) as [|d matches] eqn:Hm.
  - unfold _detect_by_ml.
    destruct (classifier user_prompt _) as [res|e]; unfold_result;
      [|exact Hfallback].
    destruct (scores res !! 0%nat) as [top_score|]; simpl;
      [|exact Hfallback].
    match goal with
    | |- context [mapM ?f ?l] => destruct (mapM f l) as [folders|] eqn:Hmap
    end; [|exact Hfallback].
    rewrite mapM_fmap in Hmap.
    eexists. split; [done|]. apply Hok; [compute_done|done].
  - pose proof (keyword_categories_configured user_prompt Hkw) as Hconf.
    rewrite Hm in Hconf.
    apply mapM_getitem_Ok in Hconf as [folders Hfolders].
    rewrite mapM_fmap, Hfolders. unfold_result.
    eexists. split; [done|]. apply Hok; [compute_done|done].
Qed.

End IntentDetectorFacts.

(** ** Strings *)

Module StrFacts.
Import Str.

Lemma app_nil (t : string) : "" +:+ t = t.
Proof. reflexivity. Qed.

Lemma app_cons c (s t : string) : String c s +:+ t = String c (s +:+ t).
Proof. reflexivity. Qed.

Lemma app_assoc (s t u : string) : (s +:+ t) +:+ u = s +:+ t +:+ u.
Proof.
  induction s as [|c s IH]; [done|]. by rewrite !app_cons, IH.
Qed.

Lemma length_app (s t : string) :
  String.length (s +:+ t) = (String.length s + String.length t)%nat.
Proof.
  induction s as [|c s IH]; [done|]. rewrite app_cons. simpl. by rewrite IH.
Qed.

Lemma take_drop n (s : string) : take n s +:+ drop n s = s.
Proof.
  revert s. induction n as [|n IH]; intros [|c s]; simpl; try done.
  by rewrite app_cons, IH.
Qed.

Lemma drop_app_length (s t : string) : drop (String.length s) (s +:+ t) = t.
Proof. induction s as [|c s IH]; simpl; [by destruct t|done]. Qed.

Lemma prefix_split (p s : string) :
  String.prefix p s = true → s = p +:+ drop (String.length p) s.
Proof.
  revert s. induction p as [|c p IH]; intros [|c' s]; simpl; try done.
  destruct (Ascii.ascii_dec c c') as [->|]; [|done].
  intros Hp. rewrite app_cons. f_equal. by apply IH.
Qed.

Lemma prefix_app (p t : string) : String.prefix p (p +:+ t) = true.
Proof.
  induction p as [|c p IH]; [by destruct t|].
  rewrite app_cons. simpl. by destruct (Ascii.ascii_dec c c).
Qed.

Lemma contains_app_r (s t needle : string) :
  contains t needle = true → contains (s +:+ t) needle = true.
Proof.
  intros Ht. induction s as [|c s IH]; [done|].
  rewrite app_cons. simpl. rewrite IH. apply orb_true_r.
Qed.

Lemma visible_app (s t : string) : visible (s +:+ t) = visible s ++ visible t.
Proof.
  induction s as [|c s IH]; [done|].
  rewrite app_cons. simpl. rewrite IH. by destruct (isspace c).
Qed.

Lemma visible_length (s : string) :
  (length (visible s) ≤ String.length s)%nat.
Proof.
  induction s as [|c s IH]; simpl; [done|].
  destruct (isspace c); simpl; lia.
Qed.

Lemma visible_lstrip (s : string) : visible (lstrip s) = visible s.
Proof.
  induction s as [|c s IH]; simpl; [done|].
  destruct (isspace c) eqn:Hc; simpl; [done|]. by rewrite Hc.
Qed.

Lemma visible_rstrip (s : string) : visible (rstrip s) = visible s.
Proof.
  induction s as [|c s IH]; simpl; [done|].
  destruct (rstrip s) as [|c' r] eqn:Hr; simpl in *.
  - destruct (isspace c) eqn:Hc; simpl; [done|]. by rewrite Hc, <-IH.
  - by rewrite IH.
Qed.

Lemma visible_strip (s : string) : visible (strip s) = visible s.
Proof. unfold strip. by rewrite visible_rstrip, visible_lstrip. Qed.

(** Appending never hides what was visible. *)
Lemma visible_sublist_app_r (s t : string) :
  visible s `sublist_of` visible (s +:+ t).
Proof. rewrite visible_app. by apply sublist_inserts_r. Qed.

Lemma visible_sublist_app_l (s t : string) :
  visible t `sublist_of` visible (s +:+ t).
Proof. rewrite visible_app. by apply sublist_inserts_l. Qed.

Lemma replace_first_eq (s old new : string) :
  replace_first s old new
  = if String.prefix old s then new +:+ drop (String.length old) s
    else match s with
         | EmptyString => EmptyString
         | String c s' => String c (replace_first s' old new)
         end.
Proof. by destruct s. Qed.

(** [s.replace(old, old + extra, 1)] only inserts text. *)
Lemma visible_replace_first (s old extra : string) :
  visible s `sublist_of` visible (replace_first s old (old +:+ extra)).
Proof.
  induction s as [|c s IH]; rewrite replace_first_eq;
    (destruct (String.prefix old _) eqn:Hp;
     [apply prefix_split in Hp; rewrite Hp at 1;
      rewrite !visible_app;
      by apply sublist_app; [apply sublist_inserts_r|]|]).
  - done.
  - simpl. destruct (isspace c); [done|]. by apply sublist_skip.
Qed.

End StrFacts.

(** ** Regular-expression substitution *)

Module ReFacts.
Import Str StrFacts Re.

Lemma run_take_all f hi (s : string) n :
  (n ≤ run f hi s)%nat →
  all_chars f (take n s) = true ∧ String.length (take n s) = n.
Proof.
  revert hi s. induction n as [|n IH]; intros hi s Hn.
  { by destruct s. }
  destruct s as [|c s].
  { destruct hi as [[|?]|]; simpl in Hn; lia. }
  assert (f c = true ∧ ∃ hi', n ≤ run f hi' s)%nat as [Hc [hi' Hrun]].
  { destruct hi as [[|hi]|]; simpl in Hn; [lia| |];
      (destruct (f c); [|lia]); (split; [done|]); eexists;
      apply Nat.succ_le_mono, Hn. }
  destruct (IH _ _ Hrun) as [Hall Hlen]. simpl.
  by rewrite Hc, Hall, Hlen.
Qed.

Lemma run_le_hi f hi (s : string) : (run f (Some hi) s ≤ hi)%nat.
Proof.
  revert hi. induction s as [|c s IH]; intros [|hi]; simpl; try lia.
  destruct (f c); [|lia]. specialize (IH hi). lia.
Qed.

Lemma backtrack_Some {X} n lo (k : nat → option X) r :
  backtrack n lo k = Some r → ∃ m, (lo ≤ m ≤ n)%nat ∧ k m = Some r.
Proof.
  induction n as [|n IH]; simpl.
  - destruct (Nat.ltb_spec 0 lo); [done|].
    destruct (k 0%nat) eqn:Hk; [|done].
    intros [= <-]. exists 0%nat. split; [lia|done].
  - destruct (Nat.ltb_spec (S n) lo); [done|].
    destruct (k (S n)) eqn:Hk.
    + intros [= <-]. exists (S n). split; [lia|done].
    + intros (m & Hm & Hkm)%IH. exists m. split; [lia|done].
Qed.

(** What a successful match consumed: one segment per item, made of
    characters of the item's class, of a length within the item's bounds,
    and together a prefix of the text. *)
Lemma match_here_spec p (s : string) segs :
  match_here p s = Some segs →
  Forall2 seg_ok p segs
  ∧ s = matched_text segs +:+ drop (matched_length segs) s.
Proof.
  revert s segs. induction p as [|it p IH]; intros s segs; simpl.
  { intros [= <-]. split; [constructor|by destruct s]. }
  intros (n & Hn & Hk)%backtrack_Some.
  destruct (match_here p (drop n s)) as [segs'|] eqn:Hrec; [|done].
  simpl in Hk. injection Hk as <-.
  destruct (IH _ _ Hrec) as [Hsegs Hsplit].
  destruct (run_take_all (cls it) (rmax it) s n) as [Hall Hlen]; [lia|].
  split.
  - constructor; [|done]. split_and!; [done|lia|].
    intros hi Hhi. rewrite Hhi in Hn.
    pose proof (run_le_hi (cls it) hi s). lia.
  - simpl. rewrite Hlen, app_assoc.
    rewrite <-(take_drop n s) at 1. f_equal.
    rewrite Hsplit at 1. f_equal.
    clear. revert s. induction n as [|n IHn]; intros s; simpl.
    + by destruct s, (matched_length segs').
    + destruct s as [|c s]; simpl; [by destruct (matched_length segs')|].
      by rewrite IHn.
Qed.

(** A preserving substitution never hides visible text. *)
Lemma sub_go_visible p tpl :
  preserving p tpl →
  ∀ (s : string) skip,
    visible (drop skip s) `sublist_of` visible (sub_go p tpl s skip).
Proof.
  intros Hpres. induction s as [|c s IH]; intros [|skip]; simpl.
  - apply sublist_nil_l.
  - done.
  - destruct (match_here p (String c s)) as [segs|] eqn:Hm.
    + pose proof (Hpres _ _ Hm) as Hvis.
      apply match_here_spec in Hm as [_ Hsplit].
      rewrite visible_app.
      destruct (matched_length segs) as [|n].
      * simpl. apply sublist_inserts_l.
        destruct (isspace c); [apply (IH 0%nat)|].
        apply sublist_skip, (IH 0%nat).
      * change (if isspace c then visible s else c :: visible s)
          with (visible (String c s)).
        rewrite Hsplit at 1. rewrite visible_app. simpl.
        apply sublist_app; [done|apply IH].
    + simpl. destruct (isspace c); [apply (IH 0%nat)|].
      apply sublist_skip, (IH 0%nat).
  - apply IH.
Qed.

Lemma sub_visible p tpl (s : string) :
  preserving p tpl → visible s `sublist_of` visible (sub p tpl s).
Proof.
  intros Hpres. unfold sub.
  pose proof (sub_go_visible p tpl Hpres s 0) as H.
  by destruct s.
Qed.

Lemma all_chars_invisible f (s : string) :
  (∀ c, f c = true → isspace c = true) →
  all_chars f s = true → visible s = [].
Proof.
  intros Hf. induction s as [|c s IH]; simpl; [done|].
  intros [Hc Hs]%andb_true_iff. rewrite (Hf _ Hc). by apply IH.
Qed.

Lemma all_chars_single c (s : string) :
  all_chars (λ x, bool_decide (x = c)) s = true →
  (1 ≤ String.length s)%nat → (String.length s ≤ 1)%nat →
  s = String c "".
Proof.
  destruct s as [|c' [|c'' s]]; simpl; intros Hall ??; try lia.
  rewrite andb_true_r in Hall. by apply bool_decide_eq_true in Hall as ->.
Qed.

Lemma LF_isspace c : bool_decide (c = LF) = true → isspace c = true.
Proof. by intros ->%bool_decide_eq_true. Qed.

(** The four substitutions of [_format_response]. *)
Lemma header_preserving :
  preserving [chr LF; rep "#" 1 (Some 6%nat); space]
             [Lit (nl +:+ nl); Seg 1; Seg 2].
Proof.
  intros s segs [Hsegs _]%match_here_spec.
  destruct segs as [|s1 [|s2 [|s3 [|]]]];
    repeat match goal with
           | H : Forall2 _ _ _ |- _ => inversion H; clear H; subst
           end.
  match goal with H : seg_ok (chr LF) _ |- _ => destruct H as [H1 _] end.
  unfold matched_text, expand. simpl.
  rewrite !visible_app.
  by rewrite (all_chars_invisible _ s1 LF_isspace H1).
Qed.

Lemma bullet_preserving (c : ascii) :
  isspace c = false →
  preserving [chr LF; chr c; space]
             [Lit (nl +:+ nl +:+ String c " ")].
Proof.
  intros Hc s segs [Hsegs _]%match_here_spec.
  destruct segs as [|s1 [|s2 [|s3 [|]]]];
    repeat match goal with
           | H : Forall2 _ _ _ |- _ => inversion H; clear H; subst
           end.
  repeat match goal with
         | H : seg_ok _ _ |- _ => destruct H as (? & ? & ?)
         end.
  unfold matched_text, expand. simpl in *.
  rewrite !visible_app.
  rewrite (all_chars_invisible _ s1 LF_isspace) by done.
  rewrite (all_chars_invisible isspace s3) by done.
  rewrite (all_chars_single c s2) by eauto.
  simpl. by rewrite Hc.
Qed.

Lemma blank_lines_preserving :
  preserving [rep LF 3 None] [Lit (nl +:+ nl)].
Proof.
  intros s segs [Hsegs _]%match_here_spec.
  destruct segs as [|s1 [|]];
    repeat match goal with
           | H : Forall2 _ _ _ |- _ => inversion H; clear H; subst
           end.
  match goal with H : seg_ok _ _ |- _ => destruct H as [H1 _] end.
  unfold matched_text, expand. simpl.
  rewrite !visible_app.
  rewrite (all_chars_invisible _ s1 LF_isspace H1). apply sublist_nil_l.
Qed.

End ReFacts.

(** ** Response enhancement *)

Ltac unfold_rand :=
  unfold mbind, Rand_bind, mret, Rand_ret, random_choice, random_random,
    next_draw in *.

Section ResponseEnhancerFacts.
Import StrFacts.
Variable config : Config.t.

Local Abbreviation visible := Str.visible.

Lemma _add_personalization_visible response user_data :
  visible response
    `sublist_of` visible (_add_personalization response user_data).
Proof.
  unfold _add_personalization.
  destruct user_data as [d|]; [|done].
  case_decide; [done|].
  set (name := get_field d "name").
  match goal with
  | |- context [if bool_decide (name ≠ "") && ?b then ?x else ?y] =>
      set (greeted := if bool_decide (name ≠ "") && b then x else y)
  end.
  assert (visible response `sublist_of` visible greeted) as Hgreeted.
  { subst greeted. destruct (bool_decide (name ≠ "") && _); [|done].
    destruct (Str.startswith response "Hi" || Str.startswith response "Hello").
    - etrans; [apply (visible_replace_first response "Hi" (" " +:+ name))|].
      apply (visible_replace_first _ "Hello" (" " +:+ name)).
    - rewrite <-!app_assoc. apply visible_sublist_app_l. }
  repeat match goal with
         | |- context [if ?b then _ else _] => destruct b
         end;
    try done; (etrans; [exact Hgreeted|apply visible_sublist_app_r]).
Qed.

Lemma _collect_ctas_family categories :
  _collect_ctas config categories
  = from_option (candidates config) []
      (first_category_family categories).
Proof.
  unfold first_category_family.
  induction categories as [|category rest IH]; simpl; [done|].
  unfold family_of at 1.
  repeat match goal with
         | |- context [if ?b then _ else _] => destruct b
         end; done.
Qed.

Lemma random_choice_elem_of {A} (seq : list A) (d : A) st :
  seq ≠ [] → (random_choice seq d st).1 ∈ seq.
Proof.
  intros Hseq. unfold random_choice. unfold_rand. simpl.
  apply list_elem_of_In, nth_In, Nat.mod_upper_bound.
  by destruct seq.
Qed.

Lemma _add_contextual_ctas_visible response intents user_data st :
  visible response
    `sublist_of`
    visible (_add_contextual_ctas config response intents user_data st).1.
Proof.
  unfold _add_contextual_ctas.
  destruct intents as [i|]; [|done].
  destruct (_collect_ctas config _); [done|].
  unfold_rand. simpl. apply visible_sublist_app_r.
Qed.

Lemma _add_branding_elements_visible response intents st :
  visible response
    `sublist_of` visible (_add_branding_elements config response intents st).1.
Proof.
  unfold _add_branding_elements. unfold_rand. simpl.
  repeat match goal with
         | |- context [if ?b then _ else _] => destruct b
         end; try done.
  - etrans; apply visible_sublist_app_r.
  - apply visible_sublist_app_r.
  - apply visible_sublist_app_r.
Qed.

Lemma _format_response_visible response :
  visible response `sublist_of` visible (_format_response response).
Proof.
  unfold _format_response. rewrite visible_strip.
  etrans; [apply ReFacts.sub_visible, ReFacts.header_preserving|].
  etrans; [apply ReFacts.sub_visible, (ReFacts.bullet_preserving "-")|];
    [done|].
  etrans; [apply ReFacts.sub_visible, (ReFacts.bullet_preserving "*")|];
    [done|].
  apply ReFacts.sub_visible, ReFacts.blank_lines_preserving.
Qed.

(** C6: the visible characters of the raw reply (those that are not white
    space) appear, in their order, in the reply returned by
    [enhance_response]; the final reply is therefore at least as long as
    the visible content of the raw reply. *)
Theorem enhance_response_keeps_visible_content
    (base_response : string) (intents : option Intent.t)
    (user_data : UserData) (st : RandomState) :
  visible base_response
    `sublist_of`
    visible (enhance_response config base_response intents user_data st).1
  ∧ (length (visible base_response)
     ≤ String.length
         (enhance_response config base_response intents user_data st).1)%nat.
Proof.
  assert (visible base_response
    `sublist_of`
    visible (enhance_response config base_response intents user_data st).1)
    as Hsub.
  { unfold enhance_response.
    pose proof (_add_personalization_visible base_response user_data) as H1.
    set (r1 := _add_personalization base_response user_data) in *.
    pose proof (_add_contextual_ctas_visible r1 intents user_data st) as H2.
    unfold mbind at 1, Rand_bind.
    destruct (_add_contextual_ctas config r1 intents user_data st)
      as [r2 st2].
    pose proof (_add_branding_elements_visible r2 intents st2) as H3.
    unfold mbind, Rand_bind.
    destruct (_add_branding_elements config r2 intents st2) as [r3 st3].
    simpl in *. etrans; [exact H1|]. etrans; [exact H2|].
    etrans; [exact H3|]. apply _format_response_visible. }
  split; [done|].
  etrans; [by apply sublist_length|]. apply visible_length.
Qed.

(** C9, as the code has it: the family is that of the first detected
    category, in detection order, that belongs to any family (a category
    is tested for service, then career, then case study); one line, taken
    from the first two candidates of that family, is appended after the
    separator.  When no detected category belongs to a family, or there
    is no intent result, the reply is returned as it is and no random
    draw is made. *)
Theorem _add_contextual_ctas_first_category
    (response : string) (intents : option Intent.t) (user_data : UserData)
    (st : RandomState) :
  match intents ≫= (λ i, first_category_family (Intent.categories i)) with
  | Some f =>
      ∃ cta,
        cta ∈ take 2 (candidates config f)
        ∧ (_add_contextual_ctas config response intents user_data st).1
          = response +:+ cta_separator +:+ cta
  | None =>
      _add_contextual_ctas config response intents user_data st
      = (response, st)
  end.
Proof.
  unfold _add_contextual_ctas.
  destruct intents as [i|]; simpl; [|done].
  rewrite _collect_ctas_family.
  destruct (first_category_family (Intent.categories i)) as [f|]; simpl;
    [|done].
  assert (∃ c cs, candidates config f = c :: cs) as (c & cs & ->).
  { destruct f; by eexists _, _. }
  exists (random_choice (take 2 (c :: cs)) c st).1. split.
  - by apply random_choice_elem_of.
  - unfold mbind at 1, Rand_bind.
    by destruct (random_choice (take 2 (c :: cs)) c st).
Qed.

End ResponseEnhancerFacts.

(** ** Prompt assembly *)

Lemma round_half_even_same (a b : Q) :
  (a == b)%Q → round_half_even a = round_half_even b.
Proof.
  intros Hab. unfold round_half_even.
  rewrite (Qfloor_comp _ _ Hab).
  assert ((a - inject_Z (Qfloor b) ?= 1 # 2)%Q
          = (b - inject_Z (Qfloor b) ?= 1 # 2)%Q) as ->; [|done].
  by rewrite Hab.
Qed.

Lemma format_f_same digits (x y : pyfloat) :
  float_same x y → format_f digits x = format_f digits y.
Proof.
  destruct x as [|a], y as [|b]; simpl; try done.
  intros Hab.
  rewrite (round_half_even_same (Qabs a * _) (Qabs b * _))
    by by rewrite Hab.
  destruct (Qlt_le_dec a 0) as [Ha|Ha], (Qlt_le_dec b 0) as [Hb|Hb];
    try done; exfalso; rewrite Hab in Ha.
  - by apply (Qlt_not_le _ _ Ha).
  - by apply (Qlt_not_le _ _ Hb).
Qed.

Lemma float_truthy_same (x y : pyfloat) :
  float_same x y → float_truthy x = float_truthy y.
Proof.
  destruct x as [|a], y as [|b]; simpl; try done.
  intros Hab. f_equal.
  destruct (Qeq_bool a 0) eqn:Ha, (Qeq_bool b 0) eqn:Hb; try done.
  - apply Qeq_bool_iff in Ha. apply Qeq_bool_neq in Hb.
    destruct Hb. by rewrite <-Hab.
  - apply Qeq_bool_iff in Hb. apply Qeq_bool_neq in Ha.
    destruct Ha. by rewrite Hab.
Qed.

Section PromptFacts.
Variable config : Config.t.

Lemma _build_intent_context_same (i j : Intent.t) :
  intent_same i j →
  _build_intent_context i = _build_intent_context j.
Proof.
  intros (Hm & Hc & _ & Hf & _). unfold _build_intent_context.
  by rewrite Hm, Hc, (float_truthy_same _ _ Hf), (format_f_same 2 _ _ Hf).
Qed.

(** C5: two calls of [build_professional_prompt] on identical inputs (the
    same question, the same user data, and intent results that are the
    same dictionary, their confidence the same number) return the same
    string.  The prompt is a function of these inputs and the
    configuration alone: it reads neither the random generator nor the
    session. *)
Theorem build_professional_prompt_deterministic
    (user_question1 user_question2 : string)
    (user_data1 user_data2 : UserData)
    (intents1 intents2 : option Intent.t) :
  user_question1 = user_question2 →
  user_data1 = user_data2 →
  option_Forall2 intent_same intents1 intents2 →
  build_professional_prompt config user_question1 user_data1 intents1
  = build_professional_prompt config user_question2 user_data2 intents2.
Proof.
  intros -> -> Hintents. unfold build_professional_prompt.
  destruct Hintents as [i j Hij|]; [|done].
  by rewrite (_build_intent_context_same i j Hij).
Qed.

End PromptFacts.

(** ** The orchestrator *)

Lemma _generate_fallback_response_contact intents user_data :
  Str.contains (_generate_fallback_response intents user_data)
    (sales_email (Config.contact load_config)) = true.
Proof.
  unfold _generate_fallback_response.
  apply StrFacts.contains_app_r. by vm_compute.
Qed.

(** The reply is the keyed one: the opening, the guidance of the key of
    the first category, the contact pointer. *)
Lemma _generate_fallback_response_keyed intents user_data :
  _generate_fallback_response intents user_data
  = keyed_fallback (Intent.categories intents).
Proof.
  unfold _generate_fallback_response, keyed_fallback, top_key,
    fallback_opening, contact_pointer.
  destruct (Intent.categories intents) as [|category ?]; [done|].
  simpl. unfold fallback_key_of.
  by repeat match goal with
            | |- context [if ?b then _ else _] => destruct b
            end.
Qed.

(** Two keys with the same guidance are the same key. *)
Lemma keyed_fallback_inj (categories categories' : list string) :
  keyed_fallback categories' = keyed_fallback categories →
  top_key categories' = top_key categories.
Proof.
  unfold keyed_fallback. intros Heq.
  apply (inj (String.app fallback_opening)) in Heq.
  destruct (top_key categories') as [[]|], (top_key categories) as [[]|];
    try done; by vm_compute in Heq.
Qed.

Section ChatEngineFacts.
Context {tensor : Type}.
Variable encode : string → tensor.
Variable pytorch_cos_sim : tensor → tensor → pyfloat.
Variable fs : filesystem.
Variable classifier : string → list string → result Classification.
Variable llm : option Chain.
Variable config : Config.t.

(** C7: with a configuration in which every category has its folder, in
    a turn in which no document is ranked or no language model is
    configured, [process_user_input] returns the fallback reply itself and
    leaves the session as it was (the enhancer, which draws from the random
    generator, is not run, and the chain is not called).  That reply is
    keyed on the first detected category: it is the opening, the guidance
    templated for the key of that category, and the contact pointer, so
    that two replies are equal exactly when the first categories have the
    same key; and it contains the sales address of the configuration. *)
Theorem process_user_input_fallback
    (user_input : string) (user_data : UserData) (st : Session) :
  keyword_folders_configured config = true →
  default_folder_configured config = true →
  (∀ intents,
     detect_intents classifier config user_input None None = Ok intents →
     rank_documents encode pytorch_cos_sim fs config user_input
       (Intent.folders intents) (Some 3) None = []
     ∨ llm = None) →
  ∃ intents,
    detect_intents classifier config user_input None None = Ok intents
    ∧ process_user_input encode pytorch_cos_sim fs classifier llm config
        user_input user_data st
      = (_generate_fallback_response intents user_data, st)
    ∧ _generate_fallback_response intents user_data
      = fallback_opening
        +:+ fallback_guidance (top_key (Intent.categories intents))
        +:+ contact_pointer
    ∧ Str.contains (_generate_fallback_response intents user_data)
        (sales_email (Config.contact load_config)) = true
    ∧ ∀ intents' user_data',
        _generate_fallback_response intents' user_data'
        = _generate_fallback_response intents user_data
        ↔ top_key (Intent.categories intents')
          = top_key (Intent.categories intents).
Proof.
  intros Hkw Hgen Hskip.
  destruct (detect_intents_returns classifier config user_input None None
              Hkw Hgen) as [intents Hintents].
  exists intents. split_and!.
  - done.
  - unfold process_user_input. rewrite Hintents.
    destruct (Hskip _ Hintents) as [-> | ->]; [done|].
    by destruct (rank_documents _ _ _ _ _ _ _ _).
  - apply _generate_fallback_response_keyed.
  - apply _generate_fallback_response_contact.
  - intros intents' user_data'.
    rewrite !_generate_fallback_response_keyed. split.
    + apply keyed_fallback_inj.
    + unfold keyed_fallback. by intros ->.
Qed.

End ChatEngineFacts.

(** ** Worked instances *)

(** The scenario of the specification: similarities 0.91 and 0.40 against
    the threshold 0.21 with a limit of 3 (a third document scores 0.10, one
    cannot be read, one is blank, and one folder is missing). *)
Lemma rank_documents_scenario :
  rank_documents Demo.encode Demo.cos_sim Demo.fs load_config "pricing"
    ["data/Services/"; "data/Missing/"] None None
  = [ (Fin (91 # 100), "pricing.txt", "Service pricing.");
      (Fin (40 # 100), "team.txt", "Our delivery team.") ].
Proof. by vm_compute. Qed.

Lemma rank_documents_sorted_above_bounded_witness :
  0 ≤ default (Config.max_documents load_config) None
  ∧ StronglySorted
      (λ d1 d2, float_ge (similarity_of d1) (similarity_of d2) = true)
      (rank_documents Demo.encode Demo.cos_sim Demo.fs load_config "pricing"
         ["data/Services/"; "data/Missing/"] None None)
  ∧ Forall
      (λ d, float_ge (similarity_of d)
              (default (Config.min_similarity_threshold load_config) None)
            = true)
      (rank_documents Demo.encode Demo.cos_sim Demo.fs load_config "pricing"
         ["data/Services/"; "data/Missing/"] None None)
  ∧ Z.of_nat (length (rank_documents Demo.encode Demo.cos_sim Demo.fs
                        load_config "pricing"
                        ["data/Services/"; "data/Missing/"] None None))
    ≤ default (Config.max_documents load_config) None.
Proof.
  split; [simpl; lia|].
  apply (rank_documents_sorted_above_bounded Demo.encode Demo.cos_sim Demo.fs
           load_config "pricing" ["data/Services/"; "data/Missing/"] None None).
  simpl; lia.
Defined.

Lemma rank_documents_missing_folder_witness :
  Demo.fs "data/Missing/" = None
  ∧ rank_documents Demo.encode Demo.cos_sim Demo.fs load_config "pricing"
      (["data/Services/"] ++ "data/Missing/" :: ["data/Blog/"]) (Some 3) None
    = rank_documents Demo.encode Demo.cos_sim Demo.fs load_config "pricing"
        (["data/Services/"] ++ ["data/Blog/"]) (Some 3) None.
Proof.
  split; [reflexivity|].
  apply (rank_documents_missing_folder Demo.encode Demo.cos_sim Demo.fs
           load_config "pricing" ["data/Services/"] ["data/Blog/"]
           "data/Missing/" (Some 3) None).
  reflexivity.
Defined.

(** The scenario of the specification: a question about job openings. *)
Lemma detect_intents_scenario :
  ∃ intents,
    detect_intents Demo.classifier load_config
      "What are your current job openings?" None None = Ok intents
    ∧ Intent.method intents = "keyword"
    ∧ Intent.categories intents = [CAREER].
Proof. eexists. split; [by vm_compute|done]. Qed.

Lemma detect_intents_keyword_match_witness :
  ∃ intents,
    detect_intents Demo.classifier load_config
      "Do you have a blog about your services?" None None = Ok intents
    ∧ Intent.method intents = "keyword"
    ∧ Intent.confidence intents = Fin 1
    ∧ SERVICES ∈ Intent.categories intents
    ∧ Intent.categories intents
      = (filter (λ entry,
                   entry_hit "Do you have a blog about your services?" entry
                   = true)
                (Config.category_keywords load_config)).*1.
Proof.
  apply (detect_intents_keyword_match Demo.classifier load_config
           "Do you have a blog about your services?" None None SERVICES
           ["services"; "solutions"; "offerings"; "what you provide";
            "automation service"; "AI services"; "document processing";
            "consulting services"; "rpa services"; "domain knowledge"]
           "services").
  - by vm_compute.
  - compute_done.
  - compute_done.
  - by vm_compute.
Defined.

(** C2 as stated fails: the utterance contains the keyword ["services"], yet
    the first category returned is the one of ["blog"], which comes earlier
    in the configuration. *)
Lemma detect_intents_keyword_category_not_first :
  (SERVICES,
   ["services"; "solutions"; "offerings"; "what you provide";
    "automation service"; "AI services"; "document processing";
    "consulting services"; "rpa services"; "domain knowledge"])
    ∈ Config.category_keywords load_config
  ∧ Str.contains (Str.lower "Do you have a blog about your services?")
      (Str.lower "services") = true
  ∧ ∃ intents,
      detect_intents Demo.classifier load_config
        "Do you have a blog about your services?" None None = Ok intents
      ∧ Intent.method intents = "keyword"
      ∧ Intent.categories intents = [BLOG; SERVICES]
      ∧ head (Intent.categories intents) ≠ Some SERVICES.
Proof.
  split; [compute_done|]. split; [by vm_compute|].
  eexists. split; [by vm_compute|]. by split_and!.
Qed.

Lemma detect_intents_no_survivor_witness :
  detect_intents Demo.classifier load_config "Tell me a joke" None None
  = Ok {| Intent.method := "ml";
          Intent.categories := [GENERAL];
          Intent.folders := ["data/General/"];
          Intent.confidence := Fin (3 # 10);
          Intent.details :=
            [ {| Detail.category := GENERAL;
                 Detail.keyword := None;
                 Detail.confidence := Some (Fin 1);
                 Detail.method := "fallback" |} ] |}.
Proof.
  apply (detect_intents_no_survivor Demo.classifier load_config
           "Tell me a joke" None None
           {| labels := Config.categories load_config;
              scores := (λ _, Fin (3 # 10)) <$> Config.categories load_config |}
           (Fin (3 # 10)) "data/General/").
  - by vm_compute.
  - by vm_compute.
  - reflexivity.
  - repeat constructor.
  - by vm_compute.
Defined.

Lemma detect_intents_classifier_raises_witness :
  ∃ folder,
    Config.category_folders load_config !! GENERAL = Some folder
    ∧ detect_intents Demo.classifier load_config "crash" None None
      = Ok {| Intent.method := "fallback";
              Intent.categories := [GENERAL];
              Intent.folders := [folder];
              Intent.confidence := Fin 1;
              Intent.details :=
                [ {| Detail.category := GENERAL;
                     Detail.keyword := None;
                     Detail.confidence := None;
                     Detail.method := "fallback" |} ] |}.
Proof.
  apply (detect_intents_classifier_raises Demo.classifier load_config
           "crash" None None (RuntimeError "model unavailable")).
  - by vm_compute.
  - by vm_compute.
  - by vm_compute.
Defined.

Lemma detect_intents_folders_follow_categories_witness :
  ∃ intents,
    detect_intents Demo.classifier load_config
      "Do you have a blog about your services?" None None = Ok intents
    ∧ Intent.method intents ∈ ["keyword"; "ml"; "fallback"]
    ∧ length (Intent.categories intents) = length (Intent.folders intents)
    ∧ Forall2 (λ category folder,
                 Config.category_folders load_config !! category = Some folder)
              (Intent.categories intents) (Intent.folders intents).
Proof.
  apply (detect_intents_folders_follow_categories Demo.classifier load_config
           "Do you have a blog about your services?" None None).
  - by vm_compute.
  - by vm_compute.
Defined.

Lemma build_professional_prompt_deterministic_witness :
  build_professional_prompt load_config "What do you offer?"
    (Some {[ "name" := "Asha" ]})
    (Some {| Intent.method := "ml";
             Intent.categories := [SERVICES];
             Intent.folders := ["data/Services/"];
             Intent.confidence := Fin (1 # 2);
             Intent.details := [] |})
  = build_professional_prompt load_config "What do you offer?"
      (Some {[ "name" := "Asha" ]})
      (Some {| Intent.method := "ml";
               Intent.categories := [SERVICES];
               Intent.folders := ["data/Services/"];
               Intent.confidence := Fin (2 # 4);
               Intent.details := [] |}).
Proof.
  apply (build_professional_prompt_deterministic load_config).
  - reflexivity.
  - reflexivity.
  - constructor. by vm_compute.
Defined.

Lemma process_user_input_fallback_witness :
  ∃ intents,
    detect_intents Demo.classifier load_config "Are you hiring?"
      None None = Ok intents
    ∧ process_user_input Demo.encode Demo.cos_sim Demo.fs Demo.classifier
        (Some Demo.chain) load_config "Are you hiring?" None Demo.session
      = (_generate_fallback_response intents None, Demo.session)
    ∧ _generate_fallback_response intents None
      = fallback_opening
        +:+ fallback_guidance (top_key (Intent.categories intents))
        +:+ contact_pointer
    ∧ Str.contains (_generate_fallback_response intents None)
        (sales_email (Config.contact load_config)) = true
    ∧ ∀ intents' user_data',
        _generate_fallback_response intents' user_data'
        = _generate_fallback_response intents None
        ↔ top_key (Intent.categories intents')
          = top_key (Intent.categories intents).
Proof.
  apply (process_user_input_fallback Demo.encode Demo.cos_sim Demo.fs
           Demo.classifier (Some Demo.chain) load_config
           "Are you hiring?" None Demo.session).
  - by vm_compute.
  - by vm_compute.
  - intros intents Hintents. left.
    vm_compute in Hintents. injection Hintents as <-. by vm_compute.
Defined.

(** The reply of that turn: the career folder does not exist, no document
    is ranked, and the reply carries the guidance of the career key. *)
Lemma process_user_input_fallback_career_scenario :
  process_user_input Demo.encode Demo.cos_sim Demo.fs Demo.classifier
    (Some Demo.chain) load_config "Are you hiring?" None Demo.session
  = ("I'd be happy to help you with information about Sundew Solutions! We're always looking for talented individuals! Check out our careers page for current openings. For specific information, please contact our team at sales@sundewsolutions.com or visit our website.",
     Demo.session).
Proof. by vm_compute. Qed.

(** The keys of the categories of the shipped configuration: services,
    careers and case studies have their guidance, the other five have
    none. *)
Lemma fallback_key_of_categories :
  fallback_key_of <$> Config.categories load_config
  = [None; None; Some CareerKey; Some CaseKey; Some ServiceKey; None; None;
     None].
Proof. by vm_compute. Qed.

(** A turn on the blog: the folder holds no document, and the blog
    category has no key, so the reply has no guidance. *)
Lemma process_user_input_fallback_scenario :
  process_user_input Demo.encode Demo.cos_sim Demo.fs Demo.classifier
    (Some Demo.chain) load_config "Tell me about your blog" None Demo.session
  = ("I'd be happy to help you with information about Sundew Solutions! For specific information, please contact our team at sales@sundewsolutions.com or visit our website.",
     Demo.session).
Proof. by vm_compute. Qed.

(** C9 as stated fails: both the career and the service family are matched
    by a detected category, and the line appended is a career line, not one
    of the service family, which comes first in the priority order. *)
Lemma cta_family_not_by_priority :
  ∃ intents,
    detect_intents Demo.classifier load_config
      "What career services do you offer?" None None = Ok intents
    ∧ Intent.categories intents = [CAREER; SERVICES]
    ∧ priority_family (Intent.categories intents) = Some Service
    ∧ (_add_contextual_ctas load_config "We can help." (Some intents) None
         Demo.rng).1
      = "We can help." +:+ cta_separator
        +:+ "💼 **Ready to apply?** Send your resume to careers@sundewsolutions.com"
    ∧ ¬ ∃ cta,
          cta ∈ candidates load_config Service
          ∧ (_add_contextual_ctas load_config "We can help." (Some intents)
               None Demo.rng).1
            = "We can help." +:+ cta_separator +:+ cta.
Proof.
  eexists. split; [by vm_compute|].
  split; [done|]. split; [by vm_compute|]. split; [by vm_compute|].
  intros (cta & Hin & Heq).
  unfold candidates, service_ctas in Hin.
  rewrite !elem_of_cons, elem_of_nil in Hin.
  destruct Hin as [-> | [-> | [-> | []]]]; vm_compute in Heq; discriminate.
Qed.

(** The process turn of the demo world when documents are ranked and a
    chain is configured: the enhanced reply, for comparison. *)
Lemma process_user_input_enhanced :
  (process_user_input Demo.encode Demo.cos_sim Demo.fs Demo.classifier
     (Some Demo.chain) load_config "Which services do you offer?" None
     Demo.session).1
  = "Hello! We build chatbots." +:+ cta_separator
    +:+ "📞 **Ready to discuss your project?** Contact our sales team at sales@sundewsolutions.com"
    +:+ Str.nl +:+ Str.nl
    +:+ "*Sundew Solutions: Digital First. Digital Fast.*"
    +:+ Str.nl +:+ Str.nl
    +:+ "💡 *With 8+ years of digital transformation expertise, Sundew Solutions has helped 100+ businesses achieve their goals.*".
Proof. by vm_compute. Qed.

(** White space is not kept: blank lines are collapsed and the ends are
    trimmed, so the final reply can be shorter than the raw reply as a
    string, while its visible characters are all there. *)
Lemma enhance_response_collapses_blank_lines :
  (enhance_response load_config
     ("  Line one" +:+ Str.nl +:+ Str.nl +:+ Str.nl +:+ Str.nl +:+ "Line two ")
     None None Demo.quiet_rng).1
  = "Line one" +:+ Str.nl +:+ Str.nl +:+ "Line two".
Proof. by vm_compute. Qed.

(** * Further properties *)

(** ** Document ranking: what is returned and what is left out *)

Section RankingFacts.
Context {tensor : Type}.
Variable encode : string → tensor.
Variable pytorch_cos_sim : tensor → tensor → pyfloat.
Variable fs : filesystem.
Variable config : Config.t.

Lemma elem_of_process_files q m files acc (d : document) :
  d ∈ foldl (_process_file encode pytorch_cos_sim q m) acc files
  ↔ d ∈ acc ∨ file_candidate encode pytorch_cos_sim q m files d.
Proof.
  revert acc. induction files as [|f files IH]; intros acc; simpl.
  { split; [by left|]. intros [?|(f & text & Hf & _)]; [done|].
    by apply elem_of_nil in Hf. }
  rewrite IH. unfold _process_file at 1.
  split.
  - intros [Hacc|(g & text & Hg & Hrest)].
    + destruct (file_read_result f) as [|text] eqn:Hread; [by left|].
      case_decide as Hblank; [by left|].
      destruct (float_ge _ m) eqn:Hge; [|by left].
      apply elem_of_app in Hacc as [?|Hd]; [by left|].
      apply list_elem_of_singleton in Hd as ->. right.
      exists f, text. split_and!; try done. apply list_elem_of_here.
    + right. exists g, text. split; [by apply list_elem_of_further|done].
  - intros [Hacc|(g & text & Hg & Hread & Hblank & -> & Hge)].
    + left. destruct (file_read_result f) as [|text]; [done|].
      case_decide; [done|]. destruct (float_ge _ m); [|done].
      apply elem_of_app. by left.
    + apply elem_of_cons in Hg as [->|Hg].
      * left. rewrite Hread. rewrite decide_False by done.
        unfold document_of, similarity_of in Hge. cbn [fst] in Hge.
        rewrite Hge. apply elem_of_app. right. apply list_elem_of_here.
      * right. by exists g, text.
Qed.

Lemma elem_of_collected folders q m (d : document) :
  d ∈ concat ((λ folder,
                 _process_folder encode pytorch_cos_sim fs folder q m)
              <$> folders)
  ↔ candidate encode pytorch_cos_sim fs folders q m d.
Proof.
  unfold candidate. induction folders as [|folder folders IH].
  { split; [by intros ?%elem_of_nil|].
    by intros (? & ? & ?%elem_of_nil & _). }
  rewrite fmap_cons, concat_cons, elem_of_app, IH. split.
  - intros [Hd|(folder' & files & Hin & Hrest)].
    + unfold _process_folder in Hd.
      destruct (fs folder) as [files|] eqn:Hfs; [|by apply elem_of_nil in Hd].
      apply elem_of_process_files in Hd as [Hd|Hd];
        [by apply elem_of_nil in Hd|].
      exists folder, files. split; [apply list_elem_of_here|done].
    + exists folder', files. split; [by apply list_elem_of_further|done].
  - intros (folder' & files & Hin & Hfs & Hd).
    apply elem_of_cons in Hin as [->|Hin].
    + left. unfold _process_folder. rewrite Hfs.
      apply elem_of_process_files. by right.
    + right. by exists folder', files.
Qed.

(** X1: every document returned by [rank_documents] was made from a file
    that could be read and is not blank, in a folder that exists and was
    among those searched; its content is the stripped text, its score the
    similarity of the query to the file name followed by the first 1000
    characters of that content, and the score reaches the threshold. *)
Theorem rank_documents_sound
    (user_prompt : string) (folders : list string)
    (top_k : option Z) (min_similarity : option pyfloat) (d : document) :
  d ∈ rank_documents encode pytorch_cos_sim fs config user_prompt folders
        top_k min_similarity →
  candidate encode pytorch_cos_sim fs folders (encode user_prompt)
    (default (Config.min_similarity_threshold config) min_similarity) d.
Proof.
  unfold rank_documents. rewrite collect_folders. simpl.
  intros Hd. apply elem_of_collected.
  destruct (slice_to_take
              (sort_desc similarity_of
                 (concat ((λ folder,
                    _process_folder encode pytorch_cos_sim fs folder
                      (encode user_prompt)
                      (default (Config.min_similarity_threshold config)
                         min_similarity)) <$> folders)))
              (default (Config.max_documents config) top_k)) as [n Hn].
  rewrite Hn in Hd. apply elem_of_take in Hd as (i & Hd & _).
  apply list_elem_of_lookup_2 in Hd. by rewrite sort_desc_perm in Hd.
Qed.

(** X2: with a limit that is not negative, a qualifying document is either
    returned, or the ranking is full (it has exactly [top_k] documents) and
    each returned document scores at least as much. *)
Theorem rank_documents_keeps_the_best
    (user_prompt : string) (folders : list string)
    (top_k : option Z) (min_similarity : option pyfloat) (d : document) :
  0 ≤ default (Config.max_documents config) top_k →
  candidate encode pytorch_cos_sim fs folders (encode user_prompt)
    (default (Config.min_similarity_threshold config) min_similarity) d →
  d ∈ rank_documents encode pytorch_cos_sim fs config user_prompt folders
        top_k min_similarity
  ∨ (Z.of_nat (length (rank_documents encode pytorch_cos_sim fs config
                         user_prompt folders top_k min_similarity))
     = default (Config.max_documents config) top_k
     ∧ Forall (λ r, float_ge (similarity_of r) (similarity_of d) = true)
         (rank_documents encode pytorch_cos_sim fs config user_prompt
            folders top_k min_similarity)).
Proof.
  intros Hk Hd. apply elem_of_collected in Hd.
  unfold rank_documents. rewrite collect_folders. simpl.
  set (m := default _ min_similarity) in *.
  set (k := default _ top_k) in *.
  set (results := concat _) in *.
  assert (StronglySorted (key_ge similarity_of)
            (sort_desc similarity_of results)) as Hsorted.
  { apply sort_desc_sorted. apply Forall_forall. intros r Hr.
    apply elem_of_collected in Hr as (? & ? & _ & _ & ? & ? & _ & _ & _ & _ & Hge).
    by eapply float_ge_finite_l. }
  unfold slice_to. destruct (Z.ltb_spec k 0) as [?|_]; [lia|].
  set (sorted := sort_desc similarity_of results) in *.
  assert (d ∈ take (Z.to_nat k) sorted ++ drop (Z.to_nat k) sorted) as Hin.
  { rewrite take_drop. subst sorted. by rewrite sort_desc_perm. }
  clear Hd. rename Hin into Hd.
  rewrite <-(take_drop (Z.to_nat k) sorted) in Hsorted.
  apply elem_of_app in Hd as [Hd|Hd]; [by left|]. right.
  split.
  - rewrite length_take.
    assert (Z.to_nat k < length sorted)%nat; [|lia].
    destruct (decide (Z.to_nat k < length sorted)%nat); [done|].
    rewrite drop_ge in Hd by lia. by apply elem_of_nil in Hd.
  - apply Forall_forall. intros r Hr.
    by apply (StronglySorted_app_1_elem_of _ _ _ _ _ Hsorted).
Qed.

End RankingFacts.

(** ** Summaries and keyword search *)

Lemma length_lstrip_le (s : string) :
  (String.length (Str.lstrip s) ≤ String.length s)%nat.
Proof.
  induction s as [|c s IH]; simpl; [done|].
  destruct (Str.isspace c); simpl; lia.
Qed.

Lemma length_rstrip_le (s : string) :
  (String.length (Str.rstrip s) ≤ String.length s)%nat.
Proof.
  induction s as [|c s IH]; simpl; [done|].
  destruct (Str.rstrip s); simpl in *; [|lia].
  destruct (Str.isspace c); simpl; lia.
Qed.

Lemma length_strip_le (s : string) :
  (String.length (Str.strip s) ≤ String.length s)%nat.
Proof.
  unfold Str.strip. etrans; [apply length_rstrip_le|apply length_lstrip_le].
Qed.

Lemma length_str_take_le n (s : string) :
  (String.length (Str.take n s) ≤ n)%nat.
Proof.
  revert s. induction n as [|n IH]; intros [|c s]; simpl; try lia.
  specialize (IH s). lia.
Qed.

Lemma _summary_loop_length max_length summary sentences :
  Z.of_nat (String.length summary) ≤ max_length + 2 →
  Z.of_nat (String.length (_summary_loop max_length summary sentences))
  ≤ max_length + 2.
Proof.
  revert summary. induction sentences as [|sentence rest IH];
    intros summary Hlen; simpl; [done|].
  destruct (Z.gtb_spec (Z.of_nat (String.length (summary +:+ sentence)))
              max_length) as [|Hfits]; [done|].
  apply IH. rewrite StrFacts.length_app in Hfits.
  rewrite !StrFacts.length_app. simpl.
  pose proof (length_strip_le sentence). lia.
Qed.

(** X3: [get_document_summary] never returns the empty string; for a
    content that is not empty and a limit that is not negative, the summary
    has at most [max_length + 3] characters (the limit itself can be
    exceeded: by the full stop that closes the last sentence, or by the
    three dots that follow a truncated content). *)
Theorem get_document_summary_bounded
    (content : string) (max_length : option Z) :
  0 ≤ default 200 max_length →
  get_document_summary content max_length ≠ ""
  ∧ (get_document_summary content max_length = "No content available"
     ∨ Z.of_nat (String.length (get_document_summary content max_length))
       ≤ default 200 max_length + 3).
Proof.
  intros Hmax. unfold get_document_summary.
  set (k := default 200 max_length) in *.
  case_decide; [by split; [|left]|].
  set (summary := _summary_loop k "" (Str.split "." content)).
  case_decide as Hempty.
  - split.
    + intros Heq. apply (f_equal String.length) in Heq.
      rewrite StrFacts.length_app in Heq. simpl in Heq. lia.
    + right. rewrite StrFacts.length_app. simpl.
      unfold str_slice_to. destruct (Z.ltb_spec k 0); [lia|].
      pose proof (length_str_take_le (Z.to_nat k) content). lia.
  - split; [done|]. right.
    pose proof (length_strip_le summary).
    pose proof (_summary_loop_length k "" (Str.split "." content)) as Hloop.
    fold summary in Hloop. simpl in Hloop. lia.
Qed.

Section KeywordSearchFacts.
Variable fs : filesystem.

Lemma _search_file_well_formed keywords results f :
  Forall (keyword_result_ok keywords) results →
  Forall (keyword_result_ok keywords) (_search_file keywords results f).
Proof.
  intros Hres. unfold _search_file.
  destruct (file_read_result f) as [|text]; [done|].
  set (matches := length (filter _ keywords)).
  destruct (Nat.ltb_spec 0 matches) as [Hpos|]; [|done].
  apply Forall_app. split; [done|]. constructor; [|done].
  assert (matches ≤ length keywords)%nat as Hle by apply length_filter.
  unfold keyword_result_ok, matches_of, relevance_of. simpl.
  assert (Z.pos (Pos.of_nat (length keywords)) = Z.of_nat (length keywords))
    as Hden.
  { rewrite <-positive_nat_Z, Nat2Pos.id by lia. done. }
  split_and!; try done; try lia.
  - unfold Qle_bool. simpl. apply negb_true_iff, Z.leb_gt. lia.
  - unfold float_le, float_ge, Qle_bool. simpl. apply Z.leb_le. lia.
Qed.

(** X4: the results of [search_documents_by_keywords] are sorted by
    non-increasing relevance; each records a number of matching keywords
    between 1 and the number of keywords, and its relevance is that number
    divided by the number of keywords, a value above 0 and at most 1. *)
Theorem search_documents_by_keywords_sorted
    (keywords folders : list string) :
  StronglySorted
    (λ r1 r2, float_ge (relevance_of r1) (relevance_of r2) = true)
    (search_documents_by_keywords fs keywords folders)
  ∧ Forall
      (λ r, (1 ≤ matches_of r ≤ length keywords)%nat
            ∧ relevance_of r
              = Fin (Z.of_nat (matches_of r) # Pos.of_nat (length keywords))
            ∧ float_lt (Fin 0) (relevance_of r) = true
            ∧ float_le (relevance_of r) (Fin 1) = true)
      (search_documents_by_keywords fs keywords folders).
Proof.
  unfold search_documents_by_keywords.
  set (results := foldl _ [] folders).
  assert (Forall (keyword_result_ok keywords) results) as Hres.
  { subst results.
    assert (∀ acc, Forall (keyword_result_ok keywords) acc →
      Forall (keyword_result_ok keywords)
        (foldl (λ results folder_path,
                  match fs folder_path with
                  | None => results
                  | Some text_files =>
                      foldl (_search_file keywords) results text_files
                  end) acc folders)) as H; [|by apply H].
    induction folders as [|folder folders IH]; intros acc Hacc; simpl;
      [done|].
    apply IH. destruct (fs folder) as [files|]; [|done].
    clear IH. revert acc Hacc.
    induction files as [|f files IHf]; intros acc Hacc; simpl; [done|].
    by apply IHf, _search_file_well_formed. }
  split.
  - apply (sort_desc_sorted relevance_of).
    eapply Forall_impl; [exact Hres|].
    intros r (_ & _ & _ & Hle). unfold float_le in Hle.
    by destruct (relevance_of r).
  - by rewrite sort_desc_perm.
Qed.

End KeywordSearchFacts.

(** ** Intent detection: the three paths in detail *)

Lemma mapM_getitem_Raise {V} (m : gmap string V) (keys : list string) k :
  k ∈ keys → m !! k = None →
  ∃ k', mapM (getitem m) keys = Raise (KeyError k')
        ∧ k' ∈ keys ∧ m !! k' = None.
Proof.
  induction keys as [|k0 keys IH]; [by intros ?%elem_of_nil|].
  intros Hk Hnone. simpl. unfold_result. unfold getitem at 1.
  destruct (m !! k0) as [v|] eqn:Hk0.
  - apply elem_of_cons in Hk as [->|Hk]; [congruence|].
    destruct (IH Hk Hnone) as (k' & -> & Hin & Hk').
    exists k'. split_and!; [done|by apply list_elem_of_further|done].
  - exists k0. split_and!; [done|apply list_elem_of_here|done].
Qed.

Lemma find_first {A} (f : A → bool) (l : list A) x :
  find f l = Some x →
  f x = true ∧ ∃ before after, l = before ++ x :: after
                               ∧ Forall (λ y, f y = false) before.
Proof.
  induction l as [|y l IH]; simpl; [done|].
  destruct (f y) eqn:Hy.
  - intros [= <-]. split; [done|]. by exists [], l.
  - intros [Hx (before & after & -> & Hbefore)]%IH. split; [done|].
    exists (y :: before), after. split; [done|]. by constructor.
Qed.

Section IntentPathFacts.
Variable config : Config.t.

(** X5: when the utterance contains a configured trigger keyword, the
    classifier is not consulted: [detect_intents] returns the same result
    (or raises the same exception) whatever the classifier, the minimum
    confidence and the score margin. *)
Theorem detect_intents_keyword_precedence
    (classifier1 classifier2 : string → list string → result Classification)
    (user_prompt : string)
    (min_confidence1 min_confidence2 score_margin1 score_margin2
       : option pyfloat) :
  keyword_occurs config user_prompt = true →
  detect_intents classifier1 config user_prompt min_confidence1 score_margin1
  = detect_intents classifier2 config user_prompt min_confidence2
      score_margin2.
Proof.
  intros Hocc. unfold detect_intents.
  destruct (_detect_by_keywords config user_prompt) eqn:Hm; [|done].
  apply _detect_by_keywords_nil in Hm. congruence.
Qed.

(** X6: the keyword pass records each matched category with the first
    keyword of its list that occurs in the utterance (compared in lower
    case), and marks the entry with the method ['keyword']. *)
Theorem _detect_by_keywords_first_keyword (user_prompt : string) :
  Forall
    (λ d, ∃ keywords keyword before after,
        (Detail.category d, keywords) ∈ Config.category_keywords config
        ∧ Detail.keyword d = Some keyword
        ∧ keywords = before ++ keyword :: after
        ∧ Str.contains (Str.lower user_prompt) (Str.lower keyword) = true
        ∧ Forall (λ k, Str.contains (Str.lower user_prompt) (Str.lower k)
                       = false) before
        ∧ Detail.method d = "keyword")
    (_detect_by_keywords config user_prompt).
Proof.
  rewrite _detect_by_keywords_omap.
  apply Forall_forall. intros d Hd.
  apply list_elem_of_omap in Hd as ([category keywords] & Hin & Hhit).
  unfold keyword_hit in Hhit. simpl in Hhit.
  destruct (find _ keywords) as [keyword|] eqn:Hfind; [|done].
  simpl in Hhit. injection Hhit as <-. simpl.
  apply find_first in Hfind as (Hocc & before & after & -> & Hbefore).
  by exists (before ++ keyword :: after), keyword, before, after.
Qed.

(** X7: with distinct keys in [category_keywords] (it is a dictionary), the
    keyword pass returns no category twice. *)
Theorem _detect_by_keywords_NoDup (user_prompt : string) :
  NoDup (Config.category_keywords config).*1 →
  NoDup (Detail.category <$> _detect_by_keywords config user_prompt).
Proof.
  intros Hkeys. rewrite _detect_by_keywords_categories.
  eapply sublist_NoDup; [exact Hkeys|].
  apply fmap_sublist. apply sublist_filter.
Qed.

End IntentPathFacts.

Section ClassifierPathFacts.
Variable classifier : string → list string → result Classification.
Variable config : Config.t.

Lemma _ml_step_selected top_score min_confidence score_margin entries acc :
  foldl (_ml_step top_score min_confidence score_margin) acc entries
  = acc ++ (ml_detail
              <$> filter (λ entry : string * pyfloat,
                            survives top_score min_confidence score_margin
                              entry.2 = true) entries).
Proof.
  revert acc. induction entries as [|[label score] entries IH]; intros acc;
    simpl.
  { by rewrite app_nil_r. }
  rewrite IH, filter_cons. unfold survives at 2. simpl.
  destruct (float_ge score min_confidence
            && float_le (float_sub top_score score) score_margin) eqn:Hs.
  - rewrite decide_True by (unfold survives; by rewrite Hs).
    by rewrite <-app_assoc.
  - by rewrite decide_False by (unfold survives; by rewrite Hs).
Qed.

(** X8: with no keyword in the utterance, a classifier that answers, some
    label passing both filters and every selected label having a folder,
    [detect_intents] returns method ['ml'], the top score as confidence,
    and as categories exactly the labels whose score is at least the
    minimum confidence and within the margin of the top score, in the
    classifier's order, each with its configured folder. *)
Theorem detect_intents_ml_selection
    (user_prompt : string) (min_confidence score_margin : option pyfloat)
    (res : Classification) (top_score : pyfloat) :
  keyword_occurs config user_prompt = false →
  classifier user_prompt (Config.categories config) = Ok res →
  scores res !! 0%nat = Some top_score →
  ml_selected config res top_score min_confidence score_margin ≠ [] →
  Forall (λ entry : string * pyfloat,
            is_Some (Config.category_folders config !! entry.1))
         (ml_selected config res top_score min_confidence score_margin) →
  ∃ folders,
    detect_intents classifier config user_prompt min_confidence score_margin
    = Ok {| Intent.method := "ml";
            Intent.categories :=
              (ml_selected config res top_score min_confidence
                 score_margin).*1;
            Intent.folders := folders;
            Intent.confidence := top_score;
            Intent.details :=
              ml_detail <$> ml_selected config res top_score min_confidence
                              score_margin |}
    ∧ Forall2 (λ category folder,
                 Config.category_folders config !! category = Some folder)
              (ml_selected config res top_score min_confidence
                 score_margin).*1 folders.
Proof.
  intros Hnokw Hres Htop Hsome Hconf.
  apply _detect_by_keywords_nil in Hnokw.
  unfold detect_intents. rewrite Hnokw.
  unfold _detect_by_ml. rewrite Hres. unfold_result.
  rewrite Htop. simpl. rewrite _ml_step_selected. simpl.
  fold (ml_selected config res top_score min_confidence score_margin).
  set (selected := ml_selected config res top_score min_confidence
                     score_margin) in *.
  destruct (mapM_getitem_Ok (Config.category_folders config) selected.*1)
    as [folders Hfolders].
  { by apply Forall_fmap. }
  exists folders.
  assert (Detail.category <$> (ml_detail <$> selected) = selected.*1) as Hcat.
  { rewrite <-list_fmap_compose. done. }
  destruct (ml_detail <$> selected) as [|d details] eqn:Hdetails.
  { by destruct selected. }
  rewrite mapM_fmap, Hcat, Hfolders.
  split; [done|]. by apply mapM_getitem_Forall2.
Qed.

(** X9: what goes wrong inside the classifier path does not leave it: with
    no keyword in the utterance and a classifier that answers, when the
    answer has no score at all, or when a selected label has no folder,
    [detect_intents] returns the fallback result (the default category,
    confidence 1.0, method ['fallback']). *)
Theorem detect_intents_ml_failure
    (user_prompt : string) (min_confidence score_margin : option pyfloat)
    (res : Classification) (folder : string) :
  keyword_occurs config user_prompt = false →
  classifier user_prompt (Config.categories config) = Ok res →
  Config.category_folders config !! GENERAL = Some folder →
  scores res = []
  ∨ (∃ top_score entry,
       scores res !! 0%nat = Some top_score
       ∧ entry ∈ ml_selected config res top_score min_confidence score_margin
       ∧ Config.category_folders config !! entry.1 = None) →
  detect_intents classifier config user_prompt min_confidence score_margin
  = Ok (fallback_intent folder).
Proof.
  intros Hnokw Hres Hfolder Hfail.
  assert (_get_fallback_intent config = Ok (fallback_intent folder)) as Hfb.
  { unfold _get_fallback_intent, getitem. by rewrite Hfolder. }
  apply _detect_by_keywords_nil in Hnokw.
  unfold detect_intents. rewrite Hnokw.
  unfold _detect_by_ml. rewrite Hres. unfold_result.
  destruct Hfail as [->|(top_score & entry & Htop & Hin & Hnone)]; [done|].
  rewrite Htop. simpl. rewrite _ml_step_selected. simpl.
  fold (ml_selected config res top_score min_confidence score_margin).
  set (selected := ml_selected config res top_score min_confidence
                     score_margin) in *.
  assert (Detail.category <$> (ml_detail <$> selected) = selected.*1) as Hcat.
  { rewrite <-list_fmap_compose. done. }
  destruct (ml_detail <$> selected) as [|d details] eqn:Hdetails.
  { destruct selected; [by apply elem_of_nil in Hin|done]. }
  destruct (mapM_getitem_Raise (Config.category_folders config)
              selected.*1 entry.1) as (k & Hraise & _); [|done|].
  { by apply list_elem_of_fmap_2. }
  by rewrite mapM_fmap, Hcat, Hraise.
Qed.

(** X10: with every category mapped to a folder, the result of
    [detect_intents] always names at least one category, and so at least
    one folder to search. *)
Theorem detect_intents_never_empty
    (user_prompt : string) (min_confidence score_margin : option pyfloat) :
  keyword_folders_configured config = true →
  default_folder_configured config = true →
  ∃ intents,
    detect_intents classifier config user_prompt min_confidence score_margin
    = Ok intents
    ∧ Intent.categories intents ≠ []
    ∧ Intent.folders intents ≠ [].
Proof.
  intros Hkw Hgen.
  destruct (_get_fallback_intent_Ok config Hgen) as (gfolder & _ & Hfb).
  assert (∀ (cats : list string) (folders : list string),
            cats ≠ [] →
            mapM (getitem (Config.category_folders config)) cats = Ok folders →
            folders ≠ []) as Hne.
  { intros cats folders Hcats Hmap ->.
    apply mapM_getitem_Forall2, Forall2_length in Hmap.
    by destruct cats. }
  unfold detect_intents.
  destruct (_detect_by_keywords config user_prompt) as [|d matches] eqn:Hm.
  - unfold _detect_by_ml.
    destruct (classifier user_prompt _) as [res|e]; unfold_result;
      [|by eexists].
    destruct (scores res !! 0%nat) as [top_score|]; simpl; [|by eexists].
    match goal with
    | |- context [mapM ?f ?l] =>
        destruct (mapM f l) as [folders|] eqn:Hmap;
        [assert (Detail.category <$> l ≠ []) as Hcats|by eexists]
    end.
    { by destruct (foldl _ _ _). }
    rewrite mapM_fmap in Hmap.
    eexists. split; [done|]. simpl. split; [done|]. by eapply Hne.
  - pose proof (keyword_categories_configured config user_prompt Hkw) as Hconf.
    rewrite Hm in Hconf.
    apply mapM_getitem_Ok in Hconf as [folders Hfolders].
    rewrite mapM_fmap, Hfolders. unfold_result.
    eexists. split; [done|]. simpl. split; [done|].
    by apply (Hne (Detail.category <$> d :: matches)).
Qed.

End ClassifierPathFacts.

(** ** The orchestrator and the prompt: edge cases *)

Section ChatEngineEdgeFacts.
Context {tensor : Type}.
Variable encode : string → tensor.
Variable pytorch_cos_sim : tensor → tensor → pyfloat.
Variable fs : filesystem.
Variable classifier : string → list string → result Classification.
Variable llm : option Chain.
Variable config : Config.t.

(** X11: the keyword path reads the folder of each matched category outside
    any [try]: when the utterance contains a keyword of a category that has
    no folder, [detect_intents] raises a [KeyError] for a category without
    folder, and [process_user_input] answers with the apology and leaves
    the session as it was. *)
Theorem process_user_input_missing_folder
    (user_input : string) (user_data : UserData) (st : Session)
    (category : string) (keywords : list string) :
  (category, keywords) ∈ Config.category_keywords config →
  entry_hit user_input (category, keywords) = true →
  Config.category_folders config !! category = None →
  (∃ key,
     detect_intents classifier config user_input None None
     = Raise (KeyError key)
     ∧ Config.category_folders config !! key = None)
  ∧ process_user_input encode pytorch_cos_sim fs classifier llm config
      user_input user_data st
    = (APOLOGY, st).
Proof.
  intros Hentry Hhit Hnone.
  assert (∃ key,
     detect_intents classifier config user_input None None
     = Raise (KeyError key)
     ∧ Config.category_folders config !! key = None) as (key & Hraise & Hkey).
  { pose proof (_detect_by_keywords_categories config user_input) as Hcats.
    assert (category
              ∈ Detail.category <$> _detect_by_keywords config user_input)
      as Hin.
    { rewrite Hcats. apply (list_elem_of_fmap_2 fst _ (category, keywords)).
      by apply list_elem_of_filter. }
    destruct (mapM_getitem_Raise _ _ _ Hin Hnone) as (key & Hraise & _ & Hkey).
    exists key. split; [|done]. unfold detect_intents.
    destruct (_detect_by_keywords config user_input) as [|d matches].
    { by apply elem_of_nil in Hin. }
    by rewrite mapM_fmap, Hraise. }
  split; [by exists key|].
  unfold process_user_input. by rewrite Hraise.
Qed.

End ChatEngineEdgeFacts.

Section PromptShapeFacts.
Variable config : Config.t.

(** X12: of the detected categories only the first two reach the prompt:
    two intent results with the same method and confidence whose category
    lists agree on their first two entries give the same prompt. *)
Theorem build_professional_prompt_top_two
    (user_question : string) (user_data : UserData) (i j : Intent.t) :
  Intent.method i = Intent.method j →
  Intent.confidence i = Intent.confidence j →
  take 2 (Intent.categories i) = take 2 (Intent.categories j) →
  build_professional_prompt config user_question user_data (Some i)
  = build_professional_prompt config user_question user_data (Some j).
Proof.
  intros Hm Hc Ht. unfold build_professional_prompt.
  assert (_build_intent_context i = _build_intent_context j) as ->; [|done].
  unfold _build_intent_context. rewrite Hm, Hc, Ht.
  by destruct (Intent.categories i), (Intent.categories j).
Qed.

End PromptShapeFacts.

(** ** More on strings *)

Module StrMore.
Import StrFacts.

Lemma prefix_nil (s : string) : String.prefix "" s = true.
Proof. by destruct s. Qed.

Lemma app_nil_r (s : string) : s +:+ "" = s.
Proof. induction s as [|c s IH]; [done|]. by rewrite app_cons, IH. Qed.

Lemma prefix_iff (p s : string) :
  String.prefix p s = true ↔ ∃ v, s = p +:+ v.
Proof.
  split.
  - intros Hp. eexists. by apply prefix_split.
  - intros [v ->]. apply prefix_app.
Qed.

Lemma contains_eq (hay needle : string) :
  Str.contains hay needle
  = String.prefix needle hay
    || match hay with
       | EmptyString => false
       | String _ hay' => Str.contains hay' needle
       end.
Proof. by destruct hay. Qed.

(** [needle in hay] says that [hay] splits around [needle]. *)
Lemma contains_iff (hay needle : string) :
  Str.contains hay needle = true ↔ ∃ u v, hay = u +:+ needle +:+ v.
Proof.
  induction hay as [|c hay IH]; rewrite contains_eq.
  - rewrite orb_false_r, prefix_iff. split.
    + intros [v Hv]. by exists "", v.
    + intros (u & v & Huv). destruct u; [by exists v|done].
  - rewrite orb_true_iff, prefix_iff, IH. split.
    + intros [[v Hv]|(u & v & ->)]; [by exists "", v|].
      by exists (String c u), v.
    + intros (u & v & Huv). destruct u as [|c' u].
      * left. by exists v.
      * rewrite app_cons in Huv. injection Huv as -> ->. right. by exists u, v.
Qed.

Lemma contains_nil (s : string) : Str.contains s "" = true.
Proof. rewrite contains_eq. by rewrite prefix_nil. Qed.

Lemma contains_app_l (s t needle : string) :
  Str.contains s needle = true → Str.contains (s +:+ t) needle = true.
Proof.
  rewrite !contains_iff. intros (u & v & ->).
  exists u, (v +:+ t). by rewrite !app_assoc.
Qed.

Lemma contains_trans (s x y : string) :
  Str.contains s x = true → Str.contains x y = true →
  Str.contains s y = true.
Proof.
  rewrite !contains_iff. intros (u & v & ->) (a & b & ->).
  exists (u +:+ a), (b +:+ v). by rewrite !app_assoc.
Qed.

Lemma replace_first_absent (s old new : string) :
  Str.contains s old = false → Str.replace_first s old new = s.
Proof.
  induction s as [|c s IH]; rewrite replace_first_eq, contains_eq.
  - rewrite orb_false_r. by intros ->.
  - intros [-> Hs]%orb_false_iff. by rewrite IH.
Qed.

Lemma replace_first_present (s old new : string) :
  Str.contains s old = true →
  Str.contains (Str.replace_first s old new) new = true.
Proof.
  induction s as [|c s IH]; rewrite replace_first_eq, contains_eq.
  - rewrite orb_false_r. intros ->.
    apply contains_iff. by exists "", (Str.drop (String.length old) "").
  - destruct (String.prefix old (String c s)) eqn:Hp.
    + intros _. apply contains_iff.
      by exists "", (Str.drop (String.length old) (String c s)).
    + rewrite orb_false_l. intros Hs%IH.
      rewrite contains_eq, Hs. apply orb_true_r.
Qed.

(** A string that does not begin with white space. *)
Lemma lstrip_head (s : string) :
  match Str.lstrip s with
  | EmptyString => True
  | String c _ => Str.isspace c = false
  end.
Proof.
  induction s as [|c s IH]; simpl; [done|].
  by destruct (Str.isspace c) eqn:Hc.
Qed.

Lemma lstrip_fixed (s : string) :
  match s with
  | EmptyString => True
  | String c _ => Str.isspace c = false
  end →
  Str.lstrip s = s.
Proof. destruct s as [|c s]; simpl; [done|]. by intros ->. Qed.

Lemma rstrip_head (s : string) :
  match s with
  | EmptyString => True
  | String c _ => Str.isspace c = false
  end →
  match Str.rstrip s with
  | EmptyString => True
  | String c _ => Str.isspace c = false
  end.
Proof.
  destruct s as [|c s]; simpl; [done|]. intros Hc.
  destruct (Str.rstrip s); [by rewrite Hc|done].
Qed.

Lemma rstrip_idemp (s : string) : Str.rstrip (Str.rstrip s) = Str.rstrip s.
Proof.
  induction s as [|c s IH]; simpl; [done|].
  destruct (Str.rstrip s) as [|c' r] eqn:Hr.
  - destruct (Str.isspace c) eqn:Hc; simpl; [done|]. by rewrite Hc.
  - simpl in *. by rewrite IH.
Qed.

Lemma strip_idemp (s : string) : Str.strip (Str.strip s) = Str.strip s.
Proof.
  unfold Str.strip.
  rewrite (lstrip_fixed (Str.rstrip (Str.lstrip s))).
  - apply rstrip_idemp.
  - apply rstrip_head, lstrip_head.
Qed.

End StrMore.

(** ** Response enhancement: what the reply ends up containing *)

Section EnhancerContentFacts.
Import StrFacts StrMore.
Variable config : Config.t.

(** X13: a name that the reply does not mention yet (compared in lower
    case) is put into it as it is written, after the greeting or in front
    of the reply, and neither the second replacement nor the sentence
    added for the user type removes it: the personalized reply contains
    the name. *)
Theorem _add_personalization_names_user
    (response : string) (d : gmap string string) :
  Str.contains (Str.lower response) (Str.lower (get_field d "name")) = false →
  Str.contains (_add_personalization response (Some d)) (get_field d "name")
  = true.
Proof.
  intros Hin. unfold _add_personalization.
  case_decide as Hd.
  { subst d. unfold get_field. rewrite lookup_empty. apply contains_nil. }
  set (name := get_field d "name") in *.
  rewrite Hin.
  match goal with
  | |- context [if bool_decide (name ≠ "") && ?b then ?x else ?y] =>
      set (greeted := if bool_decide (name ≠ "") && b then x else y)
  end.
  assert (Str.contains greeted name = true) as Hgreeted.
  { subst greeted.
    destruct (bool_decide (name ≠ "")) eqn:Hname; simpl.
    2:{ apply bool_decide_eq_false in Hname.
        assert (name = "") as -> by by destruct (decide (name = "")).
        apply contains_nil. }
    destruct (Str.startswith response "Hi" || Str.startswith response "Hello")
      eqn:Hstart.
    - set (r1 := Str.replace_first response "Hi" ("Hi " +:+ name)).
      assert (Str.contains r1 name = true ∨ Str.contains r1 "Hello" = true)
        as Hr1.
      { destruct (Str.contains response "Hi") eqn:Hhi.
        - left. eapply contains_trans.
          + by apply replace_first_present.
          + apply contains_iff. exists "Hi ", "". by rewrite app_nil_r.
        - right. subst r1. rewrite replace_first_absent by done.
          apply orb_true_iff in Hstart as [Hs|Hs].
          + unfold Str.startswith in Hs.
            rewrite contains_eq, Hs in Hhi. done.
          + unfold Str.startswith in Hs. apply contains_iff.
            apply prefix_iff in Hs as [v ->]. by exists "", v. }
      destruct (Str.contains r1 "Hello") eqn:Hhello.
      + eapply contains_trans.
        * by apply replace_first_present.
        * apply contains_iff. exists "Hello ", "". by rewrite app_nil_r.
      + rewrite replace_first_absent by done. by destruct Hr1.
    - apply contains_iff. by exists "Hi ", ("! " +:+ response). }
  repeat match goal with
         | |- context [if ?b then _ else _] => destruct b
         end;
    try done; by apply contains_app_l.
Qed.

Lemma enhance_response_formatted
    (base_response : string) (intents : option Intent.t)
    (user_data : UserData) (st : RandomState) :
  ∃ r, (enhance_response config base_response intents user_data st).1
       = _format_response r.
Proof.
  unfold enhance_response, mbind, Rand_bind, mret, Rand_ret.
  destruct (_add_contextual_ctas config _ intents user_data st) as [r2 st2].
  destruct (_add_branding_elements config r2 intents st2) as [r3 st3].
  by exists r3.
Qed.

(** X14: the reply returned by [enhance_response] has no white space at
    either end: stripping it again changes nothing. *)
Theorem enhance_response_stripped
    (base_response : string) (intents : option Intent.t)
    (user_data : UserData) (st : RandomState) :
  Str.strip (enhance_response config base_response intents user_data st).1
  = (enhance_response config base_response intents user_data st).1.
Proof.
  destruct (enhance_response_formatted base_response intents user_data st)
    as [r ->].
  unfold _format_response. apply strip_idemp.
Qed.

End EnhancerContentFacts.

(** ** Formatting: blank lines *)

Module BlankLineFacts.
Import StrFacts StrMore.

(** The number of line feeds that [s] begins with. *)
Local Abbreviation leading s := (Re.run (λ x, bool_decide (x = LF)) None s).
Local Abbreviation blank_run := (Str.nl +:+ Str.nl +:+ Str.nl).

Lemma leading_cons c (s : string) :
  leading (String c s) = if bool_decide (c = LF) then S (leading s) else O.
Proof. done. Qed.

Lemma prefix_cons a (p : string) b (t : string) :
  String.prefix (String a p) (String b t)
  = if ascii_dec a b then String.prefix p t else false.
Proof. done. Qed.

Lemma prefix_two (t : string) :
  String.prefix (Str.nl +:+ Str.nl) t = (2 <=? leading t)%nat.
Proof.
  change (Str.nl +:+ Str.nl) with (String LF (String LF "")).
  destruct t as [|a [|b t]]; [done| |].
  - rewrite prefix_cons, leading_cons.
    destruct (ascii_dec LF a) as [<-|Ha].
    + by rewrite bool_decide_eq_true_2.
    + rewrite bool_decide_eq_false_2; [done|]. by intros ->.
  - rewrite !prefix_cons, !leading_cons.
    destruct (ascii_dec LF a) as [<-|Ha].
    + rewrite bool_decide_eq_true_2 by done.
      destruct (ascii_dec LF b) as [<-|Hb].
      * by rewrite bool_decide_eq_true_2, prefix_nil.
      * rewrite bool_decide_eq_false_2; [done|]. by intros ->.
    + rewrite bool_decide_eq_false_2; [done|]. by intros ->.
Qed.

Lemma contains_blank_run_cons c (t : string) :
  Str.contains (String c t) blank_run
  = bool_decide (c = LF) && (2 <=? leading t)%nat
    || Str.contains t blank_run.
Proof.
  rewrite contains_eq. f_equal.
  rewrite <-prefix_two.
  change blank_run with (String LF (Str.nl +:+ Str.nl)).
  rewrite prefix_cons.
  destruct (ascii_dec LF c) as [<-|Hc].
  - by rewrite bool_decide_eq_true_2.
  - rewrite bool_decide_eq_false_2; [done|]. by intros ->.
Qed.

Lemma leading_drop (s : string) : leading (Str.drop (leading s) s) = O.
Proof.
  induction s as [|c s IH]; [done|].
  rewrite leading_cons. case_bool_decide as Hc.
  - simpl. exact IH.
  - simpl. by rewrite bool_decide_eq_false_2.
Qed.

Lemma match_blank_lines (s : string) :
  Re.match_here [Re.rep LF 3 None] s
  = if (leading s <? 3)%nat then None
    else Some [Str.take (leading s) s].
Proof.
  unfold Re.match_here. simpl.
  destruct (leading s) as [|n]; simpl; [done|].
  by destruct (S n <? 3)%nat.
Qed.

Lemma sub_go_empty p tpl skip :
  Re.match_here p "" = None → Re.sub_go p tpl "" skip = "".
Proof. intros Hm. destruct skip; simpl; [|done]. by rewrite Hm. Qed.

(** What the last substitution of [_format_response] leaves: no three line
    feeds in a row, and as many leading line feeds as the text had, or two
    when it had three or more. *)
Lemma collapse_go (s : string) skip :
  let out :=
    Re.sub_go [Re.rep LF 3 None] [Re.Lit (Str.nl +:+ Str.nl)] s skip in
  let rest := Str.drop skip s in
  Str.contains out blank_run = false
  ∧ leading out = if (leading rest <? 3)%nat then leading rest else 2%nat.
Proof.
  revert skip. induction s as [|c s IH]; intros skip.
  { rewrite sub_go_empty by done. by destruct skip. }
  destruct skip as [|skip]; [|apply IH].
  cbn [Re.sub_go Str.drop]. rewrite match_blank_lines.
  destruct (Nat.ltb_spec (leading (String c s)) 3) as [Hlt|Hge].
  - destruct (IH 0%nat) as [Hno Hlead].
    assert (Str.drop 0 s = s) as Hdrop by by destruct s.
    cbn zeta in Hlead. rewrite ?Hdrop in Hlead.
    rewrite contains_blank_run_cons, Hno, orb_false_r.
    rewrite !leading_cons in *.
    case_bool_decide as Hc; [|by split].
    destruct (Nat.ltb_spec (leading s) 3); [|lia].
    rewrite Hlead, andb_true_l. split; [|done].
    apply Nat.leb_gt. lia.
  - pose proof (ReFacts.run_take_all (λ x, bool_decide (x = LF)) None
                  (String c s) (leading (String c s)) ltac:(lia))
      as [_ Hlen].
    unfold Re.matched_length. cbn [foldr]. rewrite Hlen, Nat.add_0_r.
    pose proof (leading_drop (String c s)) as Hmax.
    rewrite leading_cons in Hge, Hmax |- *.
    case_bool_decide as Hc; [|lia].
    destruct (leading s) as [|n] eqn:Hn; [lia|].
    change (leading (Str.drop (S n) s) = 0%nat) in Hmax.
    destruct (IH (S n)) as [Hno Hlead]. cbn zeta in Hno, Hlead.
    rewrite Hmax in Hlead.
    change (if (0 <? 3)%nat then 0%nat else 2%nat) with 0%nat in Hlead.
    unfold Re.expand. cbn [foldr].
    change ((Str.nl +:+ Str.nl) +:+ "") with (String LF (String LF "")).
    rewrite !app_cons, app_nil.
    rewrite !contains_blank_run_cons, Hno, !leading_cons, Hlead.
    rewrite !bool_decide_eq_true_2 by done. by simpl.
Qed.

Lemma lstrip_split (s : string) : ∃ a, s = a +:+ Str.lstrip s.
Proof.
  induction s as [|c s [a IH]]; simpl; [by exists ""|].
  destruct (Str.isspace c); [|by exists ""].
  exists (String c a). by rewrite app_cons, <-IH.
Qed.

Lemma rstrip_split (s : string) : ∃ b, s = Str.rstrip s +:+ b.
Proof.
  induction s as [|c s [b IH]]; simpl; [by exists ""|].
  destruct (Str.rstrip s) as [|c' r] eqn:Hr.
  - destruct (Str.isspace c).
    + by exists (String c s).
    + exists b. rewrite app_cons. f_equal. by rewrite IH at 1.
  - exists b. rewrite app_cons. f_equal. exact IH.
Qed.

Lemma contains_strip (s x : string) :
  Str.contains s x = false → Str.contains (Str.strip s) x = false.
Proof.
  intros Hs. destruct (Str.contains (Str.strip s) x) eqn:Hx; [|done].
  rewrite <-Hs. symmetry. apply contains_iff.
  apply contains_iff in Hx as (u & v & Hx).
  destruct (lstrip_split s) as [a Ha].
  destruct (rstrip_split (Str.lstrip s)) as [b Hb].
  exists (a +:+ u), (v +:+ b).
  rewrite Ha at 1. rewrite Hb at 1. unfold Str.strip in Hx. rewrite Hx.
  by rewrite !app_assoc.
Qed.

(** X15: whatever the text, the result of [_format_response] has no three
    line feeds in a row: runs of blank lines are reduced to one blank
    line. *)
Theorem _format_response_no_blank_run (response : string) :
  Str.contains (_format_response response) blank_run = false.
Proof.
  unfold _format_response. apply contains_strip.
  unfold Re.sub. apply (collapse_go _ 0%nat).
Qed.

End BlankLineFacts.

(** ** Enhancement and the random generator *)

Section EnhancerDrawFacts.
Variable config : Config.t.

(** X16: [enhance_response] draws from the random generator once for the
    tagline and, when a detected category belongs to a call-to-action
    family, once more for the choice of the line; it leaves the sequence of
    draws itself as it was. *)
Theorem enhance_response_draws
    (base_response : string) (intents : option Intent.t)
    (user_data : UserData) (st : RandomState) :
  (enhance_response config base_response intents user_data st).2
  = {| draws := draws st;
       cursor :=
         match intents ≫= (λ i, first_category_family (Intent.categories i))
         with
         | Some _ => S (S (cursor st))
         | None => S (cursor st)
         end |}.
Proof.
  unfold enhance_response, _add_contextual_ctas, _add_branding_elements.
  destruct intents as [i|]; simpl; [|done].
  rewrite _collect_ctas_family.
  destruct (first_category_family (Intent.categories i)) as [f|]; simpl;
    [|done].
  assert (∃ c cs, candidates config f = c :: cs) as (c & cs & ->).
  { destruct f; by eexists _, _. }
  done.
Qed.

End EnhancerDrawFacts.

(** ** Follow-up suggestions *)

Lemma foldl_app_concat {A B} (g : A → list B) (l : list A) (acc : list B) :
  foldl (λ acc x, acc ++ g x) acc l = acc ++ concat (g <$> l).
Proof.
  revert acc. induction l as [|x l IH]; intros acc; simpl.
  - by rewrite app_nil_r.
  - by rewrite IH, app_assoc.
Qed.

Lemma fromkeys_go_app (a b seen : list string) :
  NoDup a → (∀ x, x ∈ a → x ∉ seen) →
  fromkeys_go seen (a ++ b) = a ++ fromkeys_go (reverse a ++ seen) b.
Proof.
  revert seen. induction a as [|x a IH]; intros seen Hnd Hfresh; [done|].
  apply NoDup_cons in Hnd as [Hx Hnd]. simpl.
  rewrite decide_False by (apply Hfresh, list_elem_of_here).
  rewrite IH; [|done|].
  - by rewrite reverse_cons, <-app_assoc.
  - intros y Hy [->|Hseen]%elem_of_cons; [done|].
    by apply (Hfresh y); [apply list_elem_of_further|].
Qed.

Lemma concat_first_nonempty {A} (ls : list (list A)) :
  match first_nonempty ls with
  | Some l => l ≠ [] ∧ l ∈ ls ∧ ∃ rest, concat ls = l ++ rest
  | None => concat ls = []
  end.
Proof.
  unfold first_nonempty. induction ls as [|l ls IH]; [done|].
  rewrite filter_cons. destruct (decide (l ≠ [])) as [Hl|Hl]; simpl.
  - split_and!; [done|apply list_elem_of_here|by eexists].
  - assert (l = []) as ->.
    { destruct l; [done|by destruct Hl]. }
    destruct (head (filter _ ls)) as [l'|]; [|done].
    destruct IH as (? & ? & rest & ->).
    split_and!; [done|by apply list_elem_of_further|by eexists].
Qed.

(** X17: [get_suggested_followups] returns the three questions of the
    first detected category that calls for follow-ups (a service, career,
    or company/about category), and nothing when no category does; the
    questions of later categories never show, and no question is
    repeated. *)
Theorem get_suggested_followups_first_category (detected_intents : Intent.t) :
  get_suggested_followups detected_intents
  = default []
      (first_nonempty (_followups_for <$> Intent.categories detected_intents))
  ∧ NoDup (get_suggested_followups detected_intents)
  ∧ (length (get_suggested_followups detected_intents) ≤ 3)%nat.
Proof.
  assert (get_suggested_followups detected_intents
          = default []
              (first_nonempty
                 (_followups_for <$> Intent.categories detected_intents)))
    as Heq.
  { unfold get_suggested_followups, dict_fromkeys.
    rewrite foldl_app_concat. simpl.
    pose proof (concat_first_nonempty
                  (_followups_for <$> Intent.categories detected_intents))
      as Hfirst.
    destruct (first_nonempty _) as [l|]; simpl.
    - destruct Hfirst as (Hl & Hin & rest & ->).
      apply list_elem_of_fmap in Hin as (category & -> & _).
      assert (NoDup (_followups_for category)
              ∧ length (_followups_for category) = 3%nat) as [Hnd Hlen].
      { unfold _followups_for in *.
        repeat match goal with
               | H : context [if ?b then _ else _] |- _ => destruct b
               end; try done; split; (compute_done || done). }
      rewrite fromkeys_go_app; [|done|by intros ? _ ?%elem_of_nil].
      by apply take_app_length'.
    - by rewrite Hfirst. }
  rewrite Heq. split; [done|].
  pose proof (concat_first_nonempty
                (_followups_for <$> Intent.categories detected_intents))
    as Hfirst.
  destruct (first_nonempty _) as [l|]; simpl;
    [|split; [constructor|lia]].
  destruct Hfirst as (Hl & Hin & _).
  apply list_elem_of_fmap in Hin as (category & -> & _).
  unfold _followups_for in *.
  repeat match goal with
         | H : context [if ?b then _ else _] |- _ => destruct b
         end; try done; split; (compute_done || (simpl; lia)).
Qed.

(** ** The primary focus of a journey *)

Lemma occurrences_cons intent x l :
  occurrences intent (x :: l)
  = (if decide (x = intent) then 1 else 0) + occurrences intent l.
Proof.
  unfold occurrences. rewrite filter_cons.
  destruct (decide (x = intent)); simpl; lia.
Qed.

Lemma occurrences_nonneg intent l : 0 ≤ occurrences intent l.
Proof. unfold occurrences. lia. Qed.

Lemma dict_get_count_intent d k j :
  dict_get (count_intent d k) j
  = dict_get d j + (if decide (k = j) then 1 else 0).
Proof.
  induction d as [|[k' v] d IH]; simpl.
  - destruct (decide (k = j)); lia.
  - destruct (decide (k' = k)) as [->|Hk]; simpl.
    + destruct (decide (k = j)); lia.
    + destruct (decide (k' = j)) as [->|]; [|done].
      rewrite decide_False by done. lia.
Qed.

Lemma count_intent_keys d k j :
  j ∈ (count_intent d k).*1 ↔ j = k ∨ j ∈ d.*1.
Proof.
  induction d as [|[k' v] d IH]; simpl.
  - rewrite list_elem_of_singleton, elem_of_nil. tauto.
  - destruct (decide (k' = k)) as [->|Hk]; simpl.
    + rewrite !elem_of_cons. tauto.
    + rewrite !elem_of_cons, IH. tauto.
Qed.

Lemma count_intent_NoDup d k : NoDup d.*1 → NoDup (count_intent d k).*1.
Proof.
  induction d as [|[k' v] d IH]; simpl; intros Hnd.
  - apply NoDup_singleton.
  - apply NoDup_cons in Hnd as [Hk' Hnd].
    destruct (decide (k' = k)) as [->|Hk]; simpl.
    + by apply NoDup_cons.
    + apply NoDup_cons. split; [|by apply IH].
      rewrite count_intent_keys. by intros [->|?].
Qed.

Lemma dict_get_elem d k v :
  NoDup d.*1 → (k, v) ∈ d → dict_get d k = v.
Proof.
  induction d as [|[k' v'] d IH]; simpl; intros Hnd Hin.
  { by apply elem_of_nil in Hin. }
  apply NoDup_cons in Hnd as [Hk' Hnd].
  apply elem_of_cons in Hin as [[= -> ->]|Hin].
  - by rewrite decide_True.
  - destruct (decide (k' = k)) as [->|]; [|by apply IH].
    destruct Hk'. by apply (list_elem_of_fmap_2 fst _ (k, v)).
Qed.

(** The dictionary after counting the intents of [l]: each count is the
    old count plus the occurrences in [l]; its keys are the old keys and
    the intents of [l]; no key is repeated. *)
Lemma counted d l :
  NoDup d.*1 →
  NoDup (foldl count_intent d l).*1
  ∧ (∀ j, dict_get (foldl count_intent d l) j
          = dict_get d j + occurrences j l)
  ∧ (∀ j, j ∈ (foldl count_intent d l).*1 ↔ j ∈ d.*1 ∨ j ∈ l).
Proof.
  revert d. induction l as [|x l IH]; intros d Hnd; simpl.
  { split_and!; [done|intros j; unfold occurrences; simpl; lia|].
    intros j. rewrite elem_of_nil. tauto. }
  destruct (IH (count_intent d x) (count_intent_NoDup d x Hnd))
    as (Hnd' & Hget & Hkeys).
  split_and!; [done| |].
  - intros j. rewrite Hget, dict_get_count_intent, occurrences_cons. lia.
  - intros j. rewrite Hkeys, count_intent_keys, elem_of_cons. tauto.
Qed.

Lemma foldl_count_items d (items : list JourneyItem.t) :
  foldl (λ intent_counts item,
           foldl count_intent intent_counts (JourneyItem.intents item))
        d items
  = foldl count_intent d (concat (JourneyItem.intents <$> items)).
Proof.
  revert d. induction items as [|item items IH]; intros d; simpl; [done|].
  by rewrite IH, foldl_app.
Qed.

Lemma max_by_count_spec first rest :
  max_by_count first rest ∈ first :: rest
  ∧ ∀ e, e ∈ first :: rest → e.2 ≤ (max_by_count first rest).2.
Proof.
  unfold max_by_count. revert first.
  induction rest as [|x rest IH]; intros first; simpl.
  { split; [apply list_elem_of_here|].
    by intros e ->%list_elem_of_singleton. }
  destruct (IH (if first.2 <? x.2 then x else first)) as [Hin Hmax].
  split.
  - apply elem_of_cons in Hin as [->|Hin].
    + destruct (first.2 <? x.2); [|apply list_elem_of_here].
      apply list_elem_of_further, list_elem_of_here.
    + by do 2 apply list_elem_of_further.
  - intros e He.
    assert (first.2 ≤ (if first.2 <? x.2 then x else first).2
            ∧ x.2 ≤ (if first.2 <? x.2 then x else first).2) as [H1 H2].
    { destruct (Z.ltb_spec first.2 x.2); lia. }
    pose proof (Hmax _ (list_elem_of_here _ _)) as Hbest.
    apply elem_of_cons in He as [->|He]; [lia|].
    apply elem_of_cons in He as [->|He]; [lia|].
    by apply Hmax, list_elem_of_further.
Qed.

(** X18: [_get_primary_focus] returns an intent that occurs in the
    journey, together with the exact number of its occurrences, and no
    intent occurs more often; it returns [None] exactly when the journey
    holds no intent at all. *)
Theorem _get_primary_focus_most_frequent
    (intents_over_time : list JourneyItem.t) :
  match _get_primary_focus intents_over_time with
  | Some (intent, n) =>
      intent ∈ concat (JourneyItem.intents <$> intents_over_time)
      ∧ n = occurrences intent
              (concat (JourneyItem.intents <$> intents_over_time))
      ∧ ∀ other,
          occurrences other
            (concat (JourneyItem.intents <$> intents_over_time)) ≤ n
  | None => concat (JourneyItem.intents <$> intents_over_time) = []
  end.
Proof.
  unfold _get_primary_focus.
  destruct intents_over_time as [|item items]; [done|].
  rewrite foldl_count_items.
  set (all := concat _).
  destruct (counted [] all) as (Hnd & Hget & Hkeys); [constructor|].
  destruct (foldl count_intent [] all) as [|first rest] eqn:Hcounts.
  - destruct all as [|x all']; [done|].
    specialize (Hkeys x). simpl in Hkeys.
    assert (x ∈ @nil string) as Hx.
    { apply Hkeys. right. apply list_elem_of_here. }
    by apply elem_of_nil in Hx.
  - destruct (max_by_count_spec first rest) as [Hin Hmax].
    destruct (max_by_count first rest) as [intent n] eqn:Hbest.
    pose proof (dict_get_elem _ _ _ Hnd Hin) as Hn.
    rewrite Hget in Hn. simpl in Hn.
    assert (intent ∈ all) as Hocc.
    { apply (list_elem_of_fmap_2 fst) in Hin. simpl in Hin.
      apply Hkeys in Hin as [Hin|Hin]; [by apply elem_of_nil in Hin|done]. }
    split_and!; [done|lia|].
    intros other.
    destruct (decide (other ∈ (first :: rest).*1)) as [Hkey|Hkey].
    + apply list_elem_of_fmap in Hkey as ([k v] & -> & Hkv).
      pose proof (dict_get_elem _ _ _ Hnd Hkv) as Hv.
      rewrite Hget in Hv. simpl in Hv.
      pose proof (Hmax _ Hkv) as Hle. simpl in *. lia.
    + assert (other ∉ all) as Hnot.
      { intros Hin'. apply Hkey, Hkeys. by right. }
      assert (occurrences other all = 0) as ->.
      { unfold occurrences.
        destruct (filter (λ x, x = other) all) as [|x l] eqn:Hf; [done|].
        assert (x ∈ filter (λ x, x = other) all) as Hx.
        { rewrite Hf. apply list_elem_of_here. }
        apply list_elem_of_filter in Hx as [-> Hx]. done. }
      pose proof (occurrences_nonneg intent all). lia.
Qed.

(** ** Social proof, conversation starters and next questions *)

(** X19: [add_social_proof] appends, after a blank line, one proof chosen
    among those of the first category that calls for one (a service,
    career, or company/about category), drawing once from the random
    generator; when no category calls for one it returns the reply as it
    is and draws nothing. *)
Theorem add_social_proof_first_category
    (response : string) (intent_categories : list string)
    (st : RandomState) :
  match first_nonempty (social_proofs_for <$> intent_categories) with
  | Some pool =>
      ∃ proof,
        proof ∈ pool
        ∧ add_social_proof response intent_categories st
          = (response +:+ Str.nl +:+ Str.nl +:+ proof,
             {| draws := draws st; cursor := S (cursor st) |})
  | None => add_social_proof response intent_categories st = (response, st)
  end.
Proof.
  assert (∀ pool : list string, pool ≠ [] →
    ∃ proof, proof ∈ pool
      ∧ (proof ← random_choice pool "";
         mret (response +:+ Str.nl +:+ Str.nl +:+ proof)) st
        = (response +:+ Str.nl +:+ Str.nl +:+ proof,
           {| draws := draws st; cursor := S (cursor st) |})) as Hchoice.
  { intros pool Hpool. exists (random_choice pool "" st).1.
    split; [by apply random_choice_elem_of|]. by unfold_rand. }
  unfold first_nonempty.
  induction intent_categories as [|category rest IH]; [done|].
  rewrite fmap_cons, filter_cons. cbn [add_social_proof].
  destruct (Str.contains (Str.lower category) "service") eqn:H1.
  { assert (social_proofs_for category = services_proofs) as ->.
    { unfold social_proofs_for. by rewrite H1. }
    rewrite decide_True by done. by apply Hchoice. }
  destruct (Str.contains (Str.lower category) "career") eqn:H2.
  { assert (social_proofs_for category = careers_proofs) as ->.
    { unfold social_proofs_for. by rewrite H1, H2. }
    rewrite decide_True by done. by apply Hchoice. }
  destruct (Str.contains (Str.lower category) "company"
            || Str.contains (Str.lower category) "about") eqn:H3.
  { assert (social_proofs_for category = company_proofs) as ->.
    { unfold social_proofs_for. by rewrite H1, H2, H3. }
    rewrite decide_True by done. by apply Hchoice. }
  assert (social_proofs_for category = []) as ->.
  { unfold social_proofs_for. by rewrite H1, H2, H3. }
  rewrite decide_False by (by intros []). exact IH.
Qed.

(** X20: whatever the user type and the draw, the conversation starter
    begins with the greeting, which names the user when the name is
    known. *)
Theorem generate_conversation_starter_greets
    (config : Config.t) (user_data : gmap string string) (st : RandomState) :
  String.prefix (starter_greeting user_data)
    (generate_conversation_starter config user_data st).1 = true.
Proof.
  unfold generate_conversation_starter. fold (starter_greeting user_data).
  set (greeting := starter_greeting user_data).
  set (user_type := default "general" (user_data !! "user_type")).
  set (pool := default _ (_starters config greeting user_type)).
  assert (pool ≠ [] ∧ Forall (λ s, String.prefix greeting s = true) pool)
    as [Hpool Hall].
  { subst pool. unfold _starters.
    repeat case_decide; simpl;
      (split; [done|repeat constructor; apply StrFacts.prefix_app]). }
  rewrite Forall_forall in Hall. apply Hall.
  by apply random_choice_elem_of.
Qed.

Lemma last_n_idemp {A} (n : nat) (l : list A) :
  last_n n (last_n n l) = last_n n l.
Proof.
  unfold last_n. rewrite length_drop.
  replace (length l - (length l - n) - n)%nat with 0%nat by lia. done.
Qed.

(** X21: [suggest_next_questions] always returns three questions, and they
    depend on the last three turns of the history only (the topic argument
    is not read). *)
Theorem suggest_next_questions_recent
    (current_topic other_topic : string)
    (conversation_history : list Turn.t) :
  length (suggest_next_questions current_topic conversation_history) = 3%nat
  ∧ suggest_next_questions current_topic conversation_history
    = suggest_next_questions other_topic (last_n 3 conversation_history).
Proof.
  unfold suggest_next_questions. rewrite last_n_idemp.
  split; [|done].
  repeat match goal with
         | |- context [if ?b then _ else _] => destruct b
         end; done.
Qed.

(** ** Worked instances of the further properties *)

Lemma rank_documents_sound_witness :
  candidate Demo.encode Demo.cos_sim Demo.fs
    ["data/Services/"; "data/Missing/"] (Demo.encode "pricing")
    (default (Config.min_similarity_threshold load_config) None)
    Cases.team_document.
Proof.
  apply (rank_documents_sound Demo.encode Demo.cos_sim Demo.fs load_config
           "pricing" ["data/Services/"; "data/Missing/"] None None).
  assert (rank_documents Demo.encode Demo.cos_sim Demo.fs load_config
            "pricing" ["data/Services/"; "data/Missing/"] None None
          = [ (Fin (91 # 100), "pricing.txt", "Service pricing.");
              Cases.team_document ]) as ->.
  { by vm_compute. }
  apply list_elem_of_further, list_elem_of_here.
Defined.

(** With a limit of one the second best document is left out, and the one
    returned scores at least as much. *)
Lemma rank_documents_keeps_the_best_witness :
  Cases.team_document
    ∈ rank_documents Demo.encode Demo.cos_sim Demo.fs load_config "pricing"
        ["data/Services/"; "data/Missing/"] (Some 1) None
  ∨ (Z.of_nat (length (rank_documents Demo.encode Demo.cos_sim Demo.fs
                         load_config "pricing"
                         ["data/Services/"; "data/Missing/"] (Some 1) None))
     = default (Config.max_documents load_config) (Some 1)
     ∧ Forall (λ r, float_ge (similarity_of r)
                      (similarity_of Cases.team_document) = true)
         (rank_documents Demo.encode Demo.cos_sim Demo.fs load_config
            "pricing" ["data/Services/"; "data/Missing/"] (Some 1) None)).
Proof.
  apply (rank_documents_keeps_the_best Demo.encode Demo.cos_sim Demo.fs
           load_config "pricing" ["data/Services/"; "data/Missing/"]
           (Some 1) None Cases.team_document).
  - simpl. lia.
  - eexists "data/Services/", _.
    split; [apply list_elem_of_here|]. split; [reflexivity|].
    eexists _, "Our delivery team.".
    split; [apply list_elem_of_here|]. split; [reflexivity|].
    split; [by vm_compute|]. split; by vm_compute.
Defined.

Lemma get_document_summary_bounded_witness :
  get_document_summary "We build chatbots. We also automate the back office."
    (Some 30) ≠ ""
  ∧ (get_document_summary
       "We build chatbots. We also automate the back office." (Some 30)
     = "No content available"
     ∨ Z.of_nat (String.length
                   (get_document_summary
                      "We build chatbots. We also automate the back office."
                      (Some 30)))
       ≤ default 200 (Some 30) + 3).
Proof.
  apply (get_document_summary_bounded
           "We build chatbots. We also automate the back office." (Some 30)).
  simpl. lia.
Defined.

Lemma get_document_summary_scenario :
  get_document_summary "We build chatbots. We also automate the back office."
    (Some 30) = "We build chatbots."
  ∧ get_document_summary "A sentence that is longer than the limit allows"
      (Some 10) = "A sentence...".
Proof. by vm_compute. Qed.

Lemma detect_intents_keyword_precedence_witness :
  detect_intents Demo.classifier load_config
    "What are your current job openings?" None None
  = detect_intents Cases.stray_classifier load_config
      "What are your current job openings?" (Some (Fin 1)) (Some (Fin 0)).
Proof.
  apply (detect_intents_keyword_precedence load_config).
  by vm_compute.
Defined.

Lemma _detect_by_keywords_NoDup_witness :
  NoDup (Detail.category
           <$> _detect_by_keywords load_config
                 "Do you have a blog about your services?").
Proof.
  apply (_detect_by_keywords_NoDup load_config).
  compute_done.
Defined.

Lemma detect_intents_ml_selection_witness :
  ∃ folders,
    detect_intents Cases.scoring_classifier load_config "Tell me a joke"
      None None
    = Ok {| Intent.method := "ml";
            Intent.categories :=
              (ml_selected load_config
                 {| labels := [SERVICES; SUCCESS; CASES; GENERAL];
                    scores := [Fin (90 # 100); Fin (87 # 100);
                               Fin (60 # 100); Fin (10 # 100)] |}
                 (Fin (90 # 100)) None None).*1;
            Intent.folders := folders;
            Intent.confidence := Fin (90 # 100);
            Intent.details :=
              ml_detail
                <$> ml_selected load_config
                      {| labels := [SERVICES; SUCCESS; CASES; GENERAL];
                         scores := [Fin (90 # 100); Fin (87 # 100);
                                    Fin (60 # 100); Fin (10 # 100)] |}
                      (Fin (90 # 100)) None None |}
    ∧ Forall2 (λ category folder,
                 Config.category_folders load_config !! category
                 = Some folder)
              (ml_selected load_config
                 {| labels := [SERVICES; SUCCESS; CASES; GENERAL];
                    scores := [Fin (90 # 100); Fin (87 # 100);
                               Fin (60 # 100); Fin (10 # 100)] |}
                 (Fin (90 # 100)) None None).*1 folders.
Proof.
  apply (detect_intents_ml_selection Cases.scoring_classifier load_config
           "Tell me a joke" None None).
  - by vm_compute.
  - reflexivity.
  - reflexivity.
  - by vm_compute.
  - vm_compute. repeat constructor; by eexists.
Defined.

(** The labels selected there: the top one and the one within the margin. *)
Lemma detect_intents_ml_selection_scenario :
  ∃ intents,
    detect_intents Cases.scoring_classifier load_config "Tell me a joke"
      None None = Ok intents
    ∧ Intent.categories intents = [SERVICES; SUCCESS]
    ∧ Intent.folders intents = ["data/Services/"; "data/Success Stories/"].
Proof. eexists. split; [by vm_compute|done]. Qed.

Lemma detect_intents_ml_failure_witness :
  detect_intents Cases.stray_classifier load_config "Tell me a joke"
    None None
  = Ok (fallback_intent "data/General/").
Proof.
  apply (detect_intents_ml_failure Cases.stray_classifier load_config
           "Tell me a joke" None None
           {| labels := ["pricing plans"; GENERAL];
              scores := [Fin (90 # 100); Fin (20 # 100)] |}
           "data/General/").
  - by vm_compute.
  - reflexivity.
  - by vm_compute.
  - right. exists (Fin (90 # 100)), ("pricing plans", Fin (90 # 100)).
    split; [reflexivity|]. split; [|by vm_compute].
    apply list_elem_of_filter. split; [by vm_compute|].
    apply list_elem_of_here.
Defined.

Lemma detect_intents_never_empty_witness :
  ∃ intents,
    detect_intents Cases.stray_classifier load_config "Tell me a joke"
      None None = Ok intents
    ∧ Intent.categories intents ≠ []
    ∧ Intent.folders intents ≠ [].
Proof.
  apply (detect_intents_never_empty Cases.stray_classifier load_config
           "Tell me a joke" None None).
  - by vm_compute.
  - by vm_compute.
Defined.

Lemma process_user_input_missing_folder_witness :
  (∃ key,
     detect_intents Demo.classifier Cases.broken_config
       "Which services do you offer?" None None
     = Raise (KeyError key)
     ∧ Config.category_folders Cases.broken_config !! key = None)
  ∧ process_user_input Demo.encode Demo.cos_sim Demo.fs Demo.classifier
      (Some Demo.chain) Cases.broken_config "Which services do you offer?"
      None Demo.session
    = (APOLOGY, Demo.session).
Proof.
  apply (process_user_input_missing_folder Demo.encode Demo.cos_sim Demo.fs
           Demo.classifier (Some Demo.chain) Cases.broken_config
           "Which services do you offer?" None Demo.session SERVICES
           ["services"; "solutions"; "offerings"; "what you provide";
            "automation service"; "AI services"; "document processing";
            "consulting services"; "rpa services"; "domain knowledge"]).
  - compute_done.
  - by vm_compute.
  - by vm_compute.
Defined.

Lemma build_professional_prompt_top_two_witness :
  build_professional_prompt load_config "What do you offer?" None
    (Some Cases.three_topics)
  = build_professional_prompt load_config "What do you offer?" None
      (Some Cases.two_topics).
Proof.
  apply (build_professional_prompt_top_two load_config).
  - reflexivity.
  - reflexivity.
  - reflexivity.
Defined.

(** A reply that opens with a word beginning with Hi: the name is put
    after those two letters. *)
Lemma _add_personalization_names_user_witness :
  Str.contains (Str.lower "Hiring is open for several roles.")
    (Str.lower (get_field Cases.ada "name")) = false
  ∧ Str.contains
      (_add_personalization "Hiring is open for several roles."
         (Some Cases.ada))
      (get_field Cases.ada "name") = true.
Proof.
  split; [by vm_compute|].
  apply (_add_personalization_names_user
           "Hiring is open for several roles." Cases.ada).
  by vm_compute.
Defined.

Lemma _add_personalization_scenario :
  _add_personalization "Hiring is open for several roles." (Some Cases.ada)
  = "Hi Adaring is open for several roles.".
Proof. by vm_compute. Qed.

(** ** Files that cannot be used, and the generation path *)

Section SkippedFileFacts.
Context {tensor : Type}.
Variable encode : string → tensor.
Variable pytorch_cos_sim : tensor → tensor → pyfloat.
Variable config : Config.t.

(** X22: a file that cannot be read, or whose text is blank, changes
    nothing: the ranking is the one obtained had the file not been in its
    folder. *)
Theorem rank_documents_skips_unusable_file
    (fs1 fs2 : filesystem) (folder : string)
    (before after : list text_file) (bad : text_file)
    (user_prompt : string) (folders : list string)
    (top_k : option Z) (min_similarity : option pyfloat) :
  fs1 folder = Some (before ++ bad :: after) →
  fs2 folder = Some (before ++ after) →
  (∀ other, other ≠ folder → fs1 other = fs2 other) →
  file_read_result bad = ReadError
  ∨ (∃ text, file_read_result bad = Contents text ∧ Str.strip text = "") →
  rank_documents encode pytorch_cos_sim fs1 config user_prompt folders
    top_k min_similarity
  = rank_documents encode pytorch_cos_sim fs2 config user_prompt folders
      top_k min_similarity.
Proof.
  intros Hfs1 Hfs2 Hother Hbad.
  assert (∀ q m acc,
            _process_file encode pytorch_cos_sim q m acc bad = acc) as Hskip.
  { intros q m acc. unfold _process_file.
    destruct Hbad as [->|(text & -> & ->)]; [done|].
    by rewrite decide_True. }
  assert (∀ f q m,
            _process_folder encode pytorch_cos_sim fs1 f q m
            = _process_folder encode pytorch_cos_sim fs2 f q m) as Hfolder.
  { intros f q m. unfold _process_folder.
    destruct (decide (f = folder)) as [->|Hf]; [|by rewrite Hother].
    rewrite Hfs1, Hfs2, !foldl_app. simpl. by rewrite Hskip. }
  unfold rank_documents. rewrite !collect_folders. simpl.
  assert (∀ (q : tensor) m,
            (λ f, _process_folder encode pytorch_cos_sim fs1 f q m)
              <$> folders
            = (λ f, _process_folder encode pytorch_cos_sim fs2 f q m)
                <$> folders) as Hmap.
  { intros q m. apply list_fmap_ext. intros _ f _. apply Hfolder. }
  by rewrite Hmap.
Qed.

End SkippedFileFacts.

Section GenerationFacts.
Context {tensor : Type}.
Variable encode : string → tensor.
Variable pytorch_cos_sim : tensor → tensor → pyfloat.
Variable fs : filesystem.
Variable classifier : string → list string → result Classification.
Variable config : Config.t.

(** X23: in a turn in which documents are ranked and a chain is
    configured, the chain is called with the assembled prompt, the ranked
    documents and the memory of the session.  When it answers, the reply of
    the turn shows every visible character of the chain's reply, in order,
    and the memory is the one the chain left; when it raises, the reply is
    the apology and the random generator is not touched. *)
Theorem process_user_input_generation
    (chain : Chain) (user_input : string) (user_data : UserData)
    (st : Session) (intents : Intent.t) :
  detect_intents classifier config user_input None None = Ok intents →
  rank_documents encode pytorch_cos_sim fs config user_input
    (Intent.folders intents) (Some 3) None ≠ [] →
  match chain
          (build_professional_prompt config user_input user_data
             (Some intents))
          (rank_documents encode pytorch_cos_sim fs config user_input
             (Intent.folders intents) (Some 3) None)
          (memory st)
  with
  | (Ok response, memory') =>
      Str.visible response
        `sublist_of`
        Str.visible
          (process_user_input encode pytorch_cos_sim fs classifier
             (Some chain) config user_input user_data st).1
      ∧ memory (process_user_input encode pytorch_cos_sim fs classifier
                  (Some chain) config user_input user_data st).2
        = memory'
  | (Raise _, memory') =>
      process_user_input encode pytorch_cos_sim fs classifier (Some chain)
        config user_input user_data st
      = (APOLOGY,
         {| random_state := random_state st; memory := memory' |})
  end.
Proof.
  intros Hintents Hdocs. unfold process_user_input. rewrite Hintents.
  destruct (rank_documents _ _ _ _ _ _ _ _) as [|doc docs] eqn:Hranked;
    [done|].
  destruct (chain _ _ _) as [[response|e] memory']; [|done].
  pose proof (_add_personalization_visible response user_data) as H1.
  unfold enhance_response, mbind, Rand_bind, mret, Rand_ret.
  pose proof (_add_contextual_ctas_visible config
                (_add_personalization response user_data) (Some intents)
                user_data (random_state st)) as H2.
  destruct (_add_contextual_ctas config _ (Some intents) user_data
              (random_state st)) as [r2 st2].
  pose proof (_add_branding_elements_visible config r2 (Some intents) st2)
    as H3.
  destruct (_add_branding_elements config r2 (Some intents) st2)
    as [r3 st3].
  simpl in *. split; [|done].
  etrans; [exact H1|]. etrans; [exact H2|]. etrans; [exact H3|].
  apply _format_response_visible.
Qed.

End GenerationFacts.

Lemma rank_documents_skips_unusable_file_witness :
  rank_documents Demo.encode Demo.cos_sim Demo.fs load_config "pricing"
    ["data/Services/"] None None
  = rank_documents Demo.encode Demo.cos_sim
      (λ folder_path,
         if decide (folder_path = "data/Services/") then
           Some ([ {| file_name := "team.txt";
                      file_read_result := Contents "Our delivery team." |} ]
                 ++ [ {| file_name := "legal.txt";
                         file_read_result := Contents "Terms of service." |};
                      {| file_name := "blank.txt";
                         file_read_result := Contents "   " |};
                      {| file_name := "pricing.txt";
                         file_read_result :=
                           Contents "  Service pricing.  " |} ])
         else Demo.fs folder_path)
      load_config "pricing" ["data/Services/"] None None.
Proof.
  apply (rank_documents_skips_unusable_file Demo.encode Demo.cos_sim
           load_config Demo.fs _ "data/Services/"
           [ {| file_name := "team.txt";
                file_read_result := Contents "Our delivery team." |} ]
           [ {| file_name := "legal.txt";
                file_read_result := Contents "Terms of service." |};
             {| file_name := "blank.txt";
                file_read_result := Contents "   " |};
             {| file_name := "pricing.txt";
                file_read_result := Contents "  Service pricing.  " |} ]
           {| file_name := "broken.txt"; file_read_result := ReadError |}).
  - reflexivity.
  - reflexivity.
  - intros other Hother. by rewrite decide_False.
  - by left.
Defined.

Lemma process_user_input_generation_witness :
  Str.visible "Hello! We build chatbots."
    `sublist_of`
    Str.visible
      (process_user_input Demo.encode Demo.cos_sim Demo.fs Demo.classifier
         (Some Demo.chain) load_config "Which services do you offer?" None
         Demo.session).1
  ∧ memory (process_user_input Demo.encode Demo.cos_sim Demo.fs
              Demo.classifier (Some Demo.chain) load_config
              "Which services do you offer?" None Demo.session).2
    = (Demo.chain
         (build_professional_prompt load_config
            "Which services do you offer?" None
            (Some {| Intent.method := "keyword";
                     Intent.categories := [SERVICES];
                     Intent.folders := ["data/Services/"];
                     Intent.confidence := Fin 1;
                     Intent.details :=
                       [ {| Detail.category := SERVICES;
                            Detail.keyword := Some "services";
                            Detail.confidence := None;
                            Detail.method := "keyword" |} ] |}))
         (rank_documents Demo.encode Demo.cos_sim Demo.fs load_config
            "Which services do you offer?" ["data/Services/"] (Some 3) None)
         (memory Demo.session)).2.
Proof.
  apply (process_user_input_generation Demo.encode Demo.cos_sim Demo.fs
           Demo.classifier load_config Demo.chain
           "Which services do you offer?" None Demo.session
           {| Intent.method := "keyword";
              Intent.categories := [SERVICES];
              Intent.folders := ["data/Services/"];
              Intent.confidence := Fin 1;
              Intent.details :=
                [ {| Detail.category := SERVICES;
                     Detail.keyword := Some "services";
                     Detail.confidence := None;
                     Detail.method := "keyword" |} ] |}).
  - by vm_compute.
  - by vm_compute.
Defined.
